(** * A shallow embedding of the slack bot of src/bot.py

    The bot relays chat messages to a model API, lets the model edit
    markdown files and query the git history through two tools, and keeps
    a per-channel, time-boxed message history.

    Modelling choices.
    - Python strings are [string]; Python lists are [list]; the global dict
      [SESSIONS] is a [gmap string session].
    - The file system is a finite map from absolute paths (lists of path
      components) to entries: a text file, a directory, or an entry whose
      [stat] fails with an error that [Path.exists] re-raises.
    - A Python exception is a value of [exn]; code that may raise returns
      [exn + A].  Effects on the file system and on the session store are
      explicit state passing; an exception keeps the state reached so far,
      as Python does (nothing is rolled back).
    - The model API and the git subprocess are external; they are oracles
      passed as arguments.  Timestamps from [time.time()] are integers. *)

From Stdlib Require Import ZArith Ascii String.
From stdpp Require Import base gmap list strings.

Local Open Scope string_scope.
Local Open Scope list_scope.
(** stdpp makes string append opaque to [simpl]; the proofs below compute with it. *)
#[local] Arguments String.append : simpl nomatch.

(* ------------------------------------------------------------------ *)
(** ** Python exceptions and an exception-and-state monad *)

Inductive exn :=
| KeyError (key : string)
| TypeError (msg : string)
| FileNotFoundError (path : string)
| IsADirectoryError (path : string)
| OSError (msg : string)
| OverflowError (msg : string)
| APIError (msg : string).

(** [str(e)] *)
Definition str_exn (e : exn) : string :=
  match e with
  | KeyError k => "'" +:+ k +:+ "'"
  | TypeError m => m
  | FileNotFoundError p => "[Errno 2] No such file or directory: '" +:+ p +:+ "'"
  | IsADirectoryError p => "[Errno 21] Is a directory: '" +:+ p +:+ "'"
  | OSError m => m
  | OverflowError m => m
  | APIError m => m
  end.

(** Computations over a state [S] that may raise. *)
Definition PyM (S A : Type) : Type := S -> (exn + A) * S.

Definition ret {S A} (a : A) : PyM S A := fun s => (inr a, s).
Definition raise {S A} (e : exn) : PyM S A := fun s => (inl e, s).
Definition bind {S A B} (m : PyM S A) (k : A -> PyM S B) : PyM S B :=
  fun s => match m s with
           | (inl e, s') => (inl e, s')
           | (inr a, s') => k a s'
           end.
Definition get {S} : PyM S S := fun s => (inr s, s).
Definition put {S} (s : S) : PyM S unit := fun _ => (inr tt, s).
(** [try: m except Exception as e: h e] *)
Definition try_except {S A} (m : PyM S A) (h : exn -> PyM S A) : PyM S A :=
  fun s => match m s with
           | (inl e, s') => h e s'
           | r => r
           end.
(** A pure computation that may raise, lifted into the monad. *)
Definition lift {S A} (r : exn + A) : PyM S A := fun s => (r, s).

Notation "'let!' x := m 'in' k" := (bind m (fun x => k))
  (at level 200, x name, m at level 100, k at level 200).

(** The tool-use loop of [ask_claude] runs for as long as the model asks
    for tools; it is run with fuel, and [None] means the fuel ran out
    before the loop ended. *)
Definition LoopM (S A : Type) : Type := S -> option ((exn + A) * S).

Definition retL {S A} (a : A) : LoopM S A := fun s => Some (inr a, s).
Definition bindL {S A B} (m : LoopM S A) (k : A -> LoopM S B) : LoopM S B :=
  fun s => match m s with
           | Some (inl e, s') => Some (inl e, s')
           | Some (inr a, s') => k a s'
           | None => None
           end.
Definition liftP {S A} (m : PyM S A) : LoopM S A := fun s => Some (m s).
Definition try_exceptL {S A} (m : LoopM S A) (h : exn -> LoopM S A) : LoopM S A :=
  fun s => match m s with
           | Some (inl e, s') => h e s'
           | r => r
           end.

Notation "'let?' x := m 'in' k" := (bindL m (fun x => k))
  (at level 200, x name, m at level 100, k at level 200).

(** A computation that leaves the state as it found it. *)
Definition read_only {S A} (m : PyM S A) : Prop := forall s, snd (m s) = s.

(* ------------------------------------------------------------------ *)
(** ** String helpers with Python semantics *)

Definition LF : ascii := Ascii.ascii_of_nat 10.
Definition CR : ascii := Ascii.ascii_of_nat 13.
Definition slash : ascii := "/"%char.

(** [s.removeprefix(p)] when [s.startswith(p)]. *)
Fixpoint strip_prefix (p s : string) : option string :=
  match p, s with
  | EmptyString, _ => Some s
  | String c p', String d s' => if Ascii.eqb c d then strip_prefix p' s' else None
  | String _ _, EmptyString => None
  end.

(** [s.startswith(p)] *)
Definition startswith (s p : string) : bool :=
  if strip_prefix p s then true else false.

(** [p in s] for strings: [p] is a substring of [s]. *)
Fixpoint str_contains (p s : string) : bool :=
  startswith s p ||
  match s with
  | EmptyString => false
  | String _ s' => str_contains p s'
  end.

(** [s.replace(old, new, 1)]: replace the first occurrence of [old]. *)
Fixpoint replace_first (old new s : string) : string :=
  match strip_prefix old s with
  | Some rest => new +:+ rest
  | None =>
      match s with
       | EmptyString => EmptyString
       | String c s' => String c (replace_first old new s')
       end
  end.

(** [s.endswith(suf)] *)
Definition rev_str (s : string) : string := string_of_list_ascii (rev (list_ascii_of_string s)).
Definition endswith (s suf : string) : bool := startswith (rev_str s) (rev_str suf).

(** [s.split("/")] for a one-character separator. *)
Fixpoint split_on (sep : ascii) (s : string) : list string :=
  match s with
  | EmptyString => [""]
  | String c s' =>
      let rest := split_on sep s' in
      if Ascii.eqb c sep then "" :: rest
      else match rest with
           | h :: t => String c h :: t
           | [] => [String c ""]
           end
  end.

(** [sep.join(l)] *)
Fixpoint join (sep : string) (l : list string) : string :=
  match l with
  | [] => ""
  | [x] => x
  | x :: l' => x +:+ sep +:+ join sep l'
  end.

(** [s.strip()] for the whitespace the code meets (space, tab, CR, LF). *)
Definition is_space (c : ascii) : bool :=
  Ascii.eqb c " "%char || Ascii.eqb c LF || Ascii.eqb c CR ||
  Ascii.eqb c (Ascii.ascii_of_nat 9).
Fixpoint lstrip (s : string) : string :=
  match s with
  | String c s' => if is_space c then lstrip s' else s
  | EmptyString => EmptyString
  end.
Definition strip (s : string) : string := rev_str (lstrip (rev_str (lstrip s))).

(** Reading a file in text mode translates ["\r\n"] and ["\r"] to ["\n"]
    (universal newlines, the default of [Path.read_text]). *)
Fixpoint universal_newlines (s : string) : string :=
  match s with
  | EmptyString => EmptyString
  | String c r =>
      if Ascii.eqb c CR then
        match r with
        | String d r' => if Ascii.eqb d LF then String LF (universal_newlines r')
                         else String LF (universal_newlines r)
        | EmptyString => String LF EmptyString
        end
      else String c (universal_newlines r)
  end.

(** [str(n)] for integers. *)
Fixpoint digits_of (fuel : nat) (n : N) (acc : string) : string :=
  match fuel with
  | O => acc
  | S f =>
      let d := String (ascii_of_N (48 + N.modulo n 10)) EmptyString in
      if (n <? 10)%N then d +:+ acc else digits_of f (N.div n 10) (d +:+ acc)
  end.
Definition str_Z (z : Z) : string :=
  match z with
  | Z0 => "0"
  | Zpos p => digits_of (Pos.size_nat p) (Npos p) ""
  | Zneg p => "-" +:+ digits_of (Pos.size_nat p) (Npos p) ""
  end.

(** [str(x)] for a string or [None]. *)
Definition str_opt (o : option string) : string :=
  match o with Some s => s | None => "None" end.

(** [x in l] for a list of strings, where [x] may be [None]. *)
Definition in_list (o : option string) (l : list string) : bool :=
  match o with Some s => existsb (String.eqb s) l | None => false end.

(* ------------------------------------------------------------------ *)
(** ** The file system *)

Inductive entry :=
| File (content : string)
| Dir
| Broken.  (** [stat] fails with an error other than "not found" *)

Abbreviation fsys := (gmap (list string) entry).

Fixpoint is_prefix_of (p q : list string) : bool :=
  match p, q with
  | [], _ => true
  | x :: p', y :: q' => String.eqb x y && is_prefix_of p' q'
  | _, _ => false
  end.

Definition show_path (p : list string) : string := "/" +:+ join "/" p.

(** A path as pathlib holds it: where it starts and its components, with
    empty and ["."] components removed and [".."] kept. *)
Record ppath := { pp_base : list string; pp_parts : list string }.

Definition str_ppath (pp : ppath) : string := show_path (pp_base pp ++ pp_parts pp).

(** [Path.name] *)
Definition path_name (pp : ppath) : string :=
  match last (pp_base pp ++ pp_parts pp) with Some n => n | None => "" end.

(** [name.rfind(c)] *)
Fixpoint rfind_from (c : ascii) (s : string) (i : nat) (acc : option nat) : option nat :=
  match s with
  | EmptyString => acc
  | String d s' => rfind_from c s' (S i) (if Ascii.eqb c d then Some i else acc)
  end.

(** [Path.suffix]: [name[i:]] for the last dot [i] when [0 < i < len(name) - 1]. *)
Definition path_suffix (pp : ppath) : string :=
  let n := path_name pp in
  match rfind_from "."%char n 0 None with
  | Some i =>
      if Nat.ltb 0 i && Nat.ltb i (String.length n - 1)
      then substring i (String.length n - i) n else ""
  | None => ""
  end.

Section Bot.

(** [PROJECT_ROOT = Path(__file__).parent.parent], as absolute components. *)
Variable PROJECT_ROOT : list string.

(** What [stat] finds at an absolute path; [PROJECT_ROOT] and its
    ancestors are directories. *)
Definition entry_at (fs : fsys) (p : list string) : option entry :=
  if is_prefix_of p PROJECT_ROOT then Some Dir else fs !! p.

(** [PROJECT_ROOT / file_path]; an absolute [file_path] replaces the root. *)
Definition root_join (file_path : string) : ppath :=
  {| pp_base := if startswith file_path "/" then [] else PROJECT_ROOT;
     pp_parts := List.filter (fun c => negb (String.eqb c "" || String.eqb c "."))
                   (split_on slash file_path) |}.

Definition permission_denied (p : list string) : exn :=
  OSError ("[Errno 13] Permission denied: '" +:+ show_path p +:+ "'").

(** The kernel's path resolution from directory [cur]: every component
    but the last must be a directory; [".."] goes to the parent.  [None]
    when a component is missing or not a directory. *)
Fixpoint walk (fs : fsys) (cur : list string) (parts : list string)
  : exn + option (list string) :=
  match parts with
  | [] => inr (Some cur)
  | s :: rest =>
      let next := if String.eqb s ".." then removelast cur else cur ++ [s] in
      match rest with
      | [] => inr (Some next)
      | _ :: _ =>
          if String.eqb s ".." then walk fs next rest
          else match entry_at fs next with
               | Some Dir => walk fs next rest
               | Some Broken => inl (permission_denied next)
               | _ => inr None
               end
      end
  end.

Definition resolve (fs : fsys) (pp : ppath) : exn + option (list string) :=
  walk fs (pp_base pp) (pp_parts pp).

(** [Path.exists()]: "not found" and "not a directory" give [False],
    other [stat] errors propagate. *)
Definition path_exists (pp : ppath) : PyM fsys bool :=
  let! fs := get in
  match resolve fs pp with
  | inl e => raise e
  | inr None => ret false
  | inr (Some p) =>
      match entry_at fs p with
      | None => ret false
      | Some Broken => raise (permission_denied p)
      | Some _ => ret true
      end
  end.

(** [Path.read_text()] *)
Definition read_text (pp : ppath) : PyM fsys string :=
  let! fs := get in
  match resolve fs pp with
  | inl e => raise e
  | inr None => raise (FileNotFoundError (str_ppath pp))
  | inr (Some p) =>
      match entry_at fs p with
      | Some (File c) => ret (universal_newlines c)
      | Some Dir => raise (IsADirectoryError (str_ppath pp))
      | Some Broken => raise (permission_denied p)
      | None => raise (FileNotFoundError (str_ppath pp))
      end
  end.

(** [Path.write_text(s)]: newlines are written as they are.  The write to
    an existing file is taken to succeed: an [OSError] after [open('w')] has
    truncated the file (disk full, quota exceeded) is not modelled. *)
Definition write_text (pp : ppath) (s : string) : PyM fsys unit :=
  let! fs := get in
  match resolve fs pp with
  | inl e => raise e
  | inr None => raise (FileNotFoundError (str_ppath pp))
  | inr (Some p) =>
      match entry_at fs p with
      | Some Dir => raise (IsADirectoryError (str_ppath pp))
      | Some Broken => raise (permission_denied p)
      | _ => put (<[p := File s]> fs)
      end
  end.

(* ------------------------------------------------------------------ *)
(** ** [edit_file] (bot.py, lines 166-190) *)

Definition access_error (file_dir : option string) (dirs : list string) : string :=
  "Error: You don't have access to edit files in '" +:+ str_opt file_dir +:+
  "'. This channel can only access: " +:+ join ", " dirs.
Definition not_exist_error (file_path : string) : string :=
  "Error: File '" +:+ file_path +:+ "' does not exist.".
Definition not_md_error : string := "Error: Can only edit markdown (.md) files.".
Definition text_not_found_error (file_path : string) : string :=
  "Error: Could not find the specified text in '" +:+ file_path +:+
  "'. Make sure it matches exactly.".
Definition updated_message (file_path : string) : string :=
  "Updated '" +:+ file_path +:+ "': replaced text successfully.".

(** [file_path.split("/")[0] if "/" in file_path else None] *)
Definition file_dir_of (file_path : string) : option string :=
  if str_contains "/" file_path then head (split_on slash file_path) else None.

(** The access check: [Some msg] when the edit is refused. *)
Definition check_access (file_path : string) (allowed_dirs : option (list string))
  : option string :=
  match allowed_dirs with
  | Some dirs =>
      let file_dir := file_dir_of file_path in
      if in_list file_dir dirs then None else Some (access_error file_dir dirs)
  | None => None
  end.

Definition edit_file (file_path find_text replace_text : string)
    (allowed_dirs : option (list string)) : PyM fsys string :=
  let full_path := root_join file_path in
  match check_access file_path allowed_dirs with
  | Some msg => ret msg
  | None =>
      let! ex := path_exists full_path in
      if negb ex then ret (not_exist_error file_path) else
      if negb (String.eqb (path_suffix full_path) ".md") then ret not_md_error else
      let! content := read_text full_path in
      if negb (str_contains find_text content) then ret (text_not_found_error file_path) else
      let new_content := replace_first find_text replace_text content in
      let! _ := write_text full_path new_content in
      ret (updated_message file_path)
  end.

(* ------------------------------------------------------------------ *)
(** ** [get_all_markdown_files] (bot.py, lines 129-163) *)

(** [PROJECTS], in the dict's insertion order. *)
Definition PROJECTS : list (string * string) :=
  [("project_alpha", "Project Alpha"); ("project_beta", "Project Beta")].

(** A file the loops visit: its path, the label of its section header, and
    the name shown when it cannot be read. *)
Record md_item := { item_path : list string; item_label : string; item_name : string }.

(** [p.relative_to(base)] on components. *)
Fixpoint strip_list_prefix (base p : list string) : option (list string) :=
  match base, p with
  | [], _ => Some p
  | b :: base', x :: p' => if String.eqb b x then strip_list_prefix base' p' else None
  | _ :: _, [] => None
  end.

(** [Path.glob("*.md")] at [dir]: the entries directly in [dir] whose name
    matches [*.md], as names.  The enumeration order is the directory's. *)
Definition glob_md (fs : fsys) (dir : list string) : list string :=
  omap (fun kv => match strip_list_prefix dir kv.1 with
                  | Some [n] => if endswith n ".md" then Some n else None
                  | _ => None
                  end) (map_to_list fs).

(** [Path.glob("**/*.md")] at [dir]: every entry below [dir] whose name
    matches [*.md], as paths relative to [dir]. *)
Definition glob_md_rec (fs : fsys) (dir : list string) : list (list string) :=
  omap (fun kv => match strip_list_prefix dir kv.1 with
                  | Some rel =>
                      match last rel with
                      | Some n => if endswith n ".md" then Some rel else None
                      | None => None
                      end
                  | None => None
                  end) (map_to_list fs).

(** The root loop: only with full access, every [*.md] but [CLAUDE.md]. *)
Definition root_items (allowed_dirs : option (list string)) (fs : fsys) : list md_item :=
  match allowed_dirs with
  | None =>
      map (fun n => {| item_path := PROJECT_ROOT ++ [n]; item_label := n; item_name := n |})
        (List.filter (fun n => negb (String.eqb n "CLAUDE.md")) (glob_md fs PROJECT_ROOT))
  | Some _ => []
  end.

(** The project loop: skip a project outside [allowed_dirs]; list the
    files of a project directory that exists. *)
Fixpoint project_items (allowed_dirs : option (list string)) (projects : list (string * string))
  : PyM fsys (list md_item) :=
  match projects with
  | [] => ret []
  | (proj_dir, proj_name) :: rest =>
      let skip :=
        match allowed_dirs with
        | Some dirs => negb (in_list (Some proj_dir) dirs)
        | None => false
        end in
      let! here :=
        (if skip then ret [] else
         let proj_path := PROJECT_ROOT ++ [proj_dir] in
         let! ex := path_exists {| pp_base := proj_path; pp_parts := [] |} in
         if ex then
           let! fs := get in
           ret (map (fun rel =>
                  {| item_path := proj_path ++ rel;
                     item_label := join "/" (proj_dir :: rel) +:+ " (" +:+ proj_name +:+ ")";
                     item_name := default "" (last rel) |})
                (glob_md_rec fs proj_path))
         else ret []) in
      let! more := project_items allowed_dirs rest in
      ret (here ++ more)
  end.

Definition files_to_read (allowed_dirs : option (list string)) : PyM fsys (list md_item) :=
  let! fs := get in
  let! proj := project_items allowed_dirs PROJECTS in
  ret (root_items allowed_dirs fs ++ proj).

Definition NL2 : string := String LF (String LF "").

(** One iteration's body: read the file, or the error placeholder. *)
Definition render_item (it : md_item) : PyM fsys string :=
  try_except
    (let! content := read_text {| pp_base := item_path it; pp_parts := [] |} in
     ret ("## File: " +:+ item_label it +:+ NL2 +:+ content))
    (fun e => ret ("## File: " +:+ item_name it +:+ NL2 +:+ "Error reading file: " +:+ str_exn e)).

Fixpoint mapM {S A B} (f : A -> PyM S B) (l : list A) : PyM S (list B) :=
  match l with
  | [] => ret []
  | x :: l' => let! y := f x in let! ys := mapM f l' in ret (y :: ys)
  end.

Definition NO_FILES : string := "No project files found.".
Definition SECTION_SEP : string := NL2 +:+ "---" +:+ NL2.

Definition get_all_markdown_files (allowed_dirs : option (list string)) : PyM fsys string :=
  let! items := files_to_read allowed_dirs in
  let! files_content := mapM render_item items in
  ret (match files_content with [] => NO_FILES | _ => join SECTION_SEP files_content end).

(* ------------------------------------------------------------------ *)
(** ** [get_recent_updates] (bot.py, lines 193-248) *)

(** A JSON value as the model sends it in a tool's input. *)
Inductive jvalue :=
| JStr (s : string)
| JInt (z : Z)
| JBool (b : bool)
| JNull.

(** [str(v)] *)
Definition str_jvalue (v : jvalue) : string :=
  match v with
  | JStr s => s
  | JInt z => str_Z z
  | JBool b => if b then "True" else "False"
  | JNull => "None"
  end.

(** [subprocess.run(..., capture_output=True, text=True)]: an exception
    (git missing, ...) or the completed process. *)
Record completed := { returncode : Z; stdout : string; stderr : string }.
Definition git_oracle : Type := list string -> exn + completed.

(** [date.strftime("%Y-%m-%d")] of a proleptic Gregorian ordinal. *)
Definition pad2 (n : Z) : string := (if (n <? 10)%Z then "0" else "") +:+ str_Z n.
Definition format_ymd (ord : Z) : string :=
  let z := (ord + 305)%Z in
  let era := (z / 146097)%Z in
  let doe := (z - era * 146097)%Z in
  let yoe := ((doe - doe / 1460 + doe / 36524 - doe / 146096) / 365)%Z in
  let doy := (doe - (365 * yoe + yoe / 4 - yoe / 100))%Z in
  let mp := ((5 * doy + 2) / 153)%Z in
  let d := (doy - (153 * mp + 2) / 5 + 1)%Z in
  let m := if (mp <? 10)%Z then (mp + 3)%Z else (mp - 9)%Z in
  let y := (yoe + era * 400 + (if (m <=? 2)%Z then 1 else 0))%Z in
  str_Z y +:+ "-" +:+ pad2 m +:+ "-" +:+ pad2 d.

(** [(datetime.now() - timedelta(days=days)).strftime("%Y-%m-%d")];
    [bool] is an [int] in Python, other types raise [TypeError].  [timedelta]
    converts the normalised day count to a C [int] before it checks its
    range, so a count outside the 32-bit range raises that conversion's
    [OverflowError]. *)
Definition since_date (today : Z) (days : jvalue) : exn + string :=
  let n := match days with
           | JInt z => inr z
           | JBool b => inr (if b then 1%Z else 0%Z)
           | JStr _ => inl (TypeError "unsupported type for timedelta days component: str")
           | JNull => inl (TypeError "unsupported type for timedelta days component: NoneType")
           end in
  match n with
  | inl e => inl e
  | inr n =>
      if ((n <? -2147483648) || (2147483647 <? n))%Z then
        inl (OverflowError "Python int too large to convert to C int")
      else if (999999999 <? Z.abs n)%Z then
        inl (OverflowError ("days=" +:+ str_Z n +:+ "; must have magnitude <= 999999999"))
      else
        let d := (today - n)%Z in
        if ((1 <=? d) && (d <=? 3652059))%Z then inr (format_ymd d)
        else inl (OverflowError "date value out of range")
  end.

(** [len(set(f for f in s.split("\n") if f))] *)
Definition count_unique_lines (s : string) : nat :=
  length (remove_dups (List.filter (fun f => negb (String.eqb f "")) (split_on LF s))).

Definition NL : string := String LF "".

(** The body of the [try] block; an exception is [inl]. *)
Definition get_recent_updates_body (git : git_oracle) (today : Z) (days : jvalue)
  : exn + string :=
  match since_date today days with
  | inl e => inl e
  | inr since =>
  match git ["git"; "log"; "--since=" +:+ since; "--pretty=format:%h|%s|%ad";
             "--date=short"; "--name-only"] with
  | inl e => inl e
  | inr log_result =>
  if negb (returncode log_result =? 0)%Z then
    inr ("Error running git log: " +:+ stderr log_result) else
  if String.eqb (strip (stdout log_result)) "" then
    inr ("No commits found in the last " +:+ str_jvalue days +:+ " days.") else
  match git ["git"; "log"; "--since=" +:+ since; "--pretty=format:"; "--shortstat"] with
  | inl e => inl e
  | inr _stat_result =>
  match git ["git"; "rev-list"; "--count"; "--since=" +:+ since; "HEAD"] with
  | inl e => inl e
  | inr count_result =>
  let commit_count :=
    if (returncode count_result =? 0)%Z then strip (stdout count_result) else "unknown" in
  match git ["git"; "log"; "--since=" +:+ since; "--pretty=format:"; "--name-only"] with
  | inl e => inl e
  | inr files_result =>
  let n_files := count_unique_lines (strip (stdout files_result)) in
  inr ("Git history for the last " +:+ str_jvalue days +:+ " days:" +:+ NL2 +:+
       "Total commits: " +:+ commit_count +:+ NL +:+
       "Files modified: " +:+ str_Z (Z.of_nat n_files) +:+ NL2 +:+
       "Commits:" +:+ NL +:+ stdout log_result)
  end end end end end.

Definition get_recent_updates (git : git_oracle) (today : Z) (days : jvalue) : string :=
  match get_recent_updates_body git today days with
  | inl e => "Error getting git history: " +:+ str_exn e
  | inr r => r
  end.

(* ------------------------------------------------------------------ *)
(** ** Messages, the model API and the world of a turn *)

Record tool_result := { tool_use_id : string; tr_content : string }.

(** A content block of a model response: [hasattr(block, "text")] holds
    for text blocks only. *)
Inductive block :=
| TextBlock (text : string)
| ToolUseBlock (id name : string) (input : list (string * jvalue)).

Inductive content :=
| CText (s : string)
| CBlocks (bs : list block)
| CToolResults (rs : list tool_result).

Record message := { role : string; msg_content : content }.

Record response := { stop_reason : string; resp_content : list block }.

(** The part of a [claude.messages.create] call that varies: the system
    prompt and the messages (model, max_tokens and tools are constants). *)
Record request := { req_system : string; req_messages : list message }.

Record session := { messages : list message; last_activity : Z }.

(** The mutable state: [SESSIONS], the files, and the requests sent to the
    model so far (the record of the API's inputs). *)
Record world := { SESSIONS : gmap string session; files : fsys; sent : list request }.

Definition set_sessions (m : gmap string session) (w : world) : world :=
  {| SESSIONS := m; files := files w; sent := sent w |}.
Definition set_files (fs : fsys) (w : world) : world :=
  {| SESSIONS := SESSIONS w; files := fs; sent := sent w |}.
Definition set_sent (l : list request) (w : world) : world :=
  {| SESSIONS := SESSIONS w; files := files w; sent := l |}.

(** The environment: the model API (which may answer differently to each
    call, so it sees the requests sent before), the git subprocess, the
    value of [time.time()] and today's date. *)
Record env := {
  api : list request -> request -> exn + response;
  git : git_oracle;
  clock : Z;
  today : Z }.

(** Run a file-system computation on the world's files. *)
Definition on_files {A} (m : PyM fsys A) : PyM world A :=
  fun w => let (r, fs') := m (files w) in (r, set_files fs' w).

(* ------------------------------------------------------------------ *)
(** ** Access policy and session store (bot.py, lines 17-48, 266-282) *)

(** [CHANNEL_ACCESS]: empty in the source, so every channel has full access. *)
Definition CHANNEL_ACCESS : gmap string (list string) := ∅.

Definition get_allowed_dirs (channel_id : string) : option (list string) :=
  CHANNEL_ACCESS !! channel_id.

Definition SESSION_TIMEOUT : Z := 30 * 60.

Definition fresh_session (now : Z) : session := {| messages := []; last_activity := now |}.

Definition get_session (channel_id : string) (now : Z) : PyM world session :=
  let! w := get in
  (* delete every expired session *)
  let live := filter (fun kv : string * session =>
                        (now - last_activity kv.2 <= SESSION_TIMEOUT)%Z) (SESSIONS w) in
  let sess :=
    match live !! channel_id with
    | Some s =>
        if (now - last_activity s >? SESSION_TIMEOUT)%Z then fresh_session now
        else {| messages := messages s; last_activity := now |}
    | None => fresh_session now
    end in
  let! _ := put (set_sessions (<[channel_id := sess]> live) w) in
  ret sess.

(** [session["messages"].append(m)], [session] being [SESSIONS[channel_id]]. *)
Definition session_append (channel_id : string) (m : message) : PyM world unit :=
  let! w := get in
  match SESSIONS w !! channel_id with
  | Some s =>
      put (set_sessions (<[channel_id := {| messages := messages s ++ [m];
                                            last_activity := last_activity s |}]>
                         (SESSIONS w)) w)
  | None => ret tt
  end.

(** [session["messages"].copy()] *)
Definition session_messages (channel_id : string) : PyM world (list message) :=
  let! w := get in
  ret (match SESSIONS w !! channel_id with Some s => messages s | None => [] end).

Definition MAX_MESSAGES : nat := 40.

(** [if len(msgs) > 40: msgs = msgs[-40:]] *)
Definition trim_messages (msgs : list message) : list message :=
  if Nat.ltb MAX_MESSAGES (length msgs) then drop (length msgs - MAX_MESSAGES) msgs else msgs.

Definition session_trim (channel_id : string) : PyM world unit :=
  let! w := get in
  match SESSIONS w !! channel_id with
  | Some s =>
      put (set_sessions (<[channel_id := {| messages := trim_messages (messages s);
                                            last_activity := last_activity s |}]>
                         (SESSIONS w)) w)
  | None => ret tt
  end.

(* ------------------------------------------------------------------ *)
(** ** Tools (bot.py, lines 251-263) *)

(** [tool_input.get(k)] *)
Definition dict_get (d : list (string * jvalue)) (k : string) : option jvalue :=
  snd <$> List.find (fun kv => String.eqb kv.1 k) d.

(** [tool_input[k]]: a missing key raises [KeyError]. *)
Definition subscript (d : list (string * jvalue)) (k : string) : exn + jvalue :=
  match dict_get d k with
  | Some v => inr v
  | None => inl (KeyError k)
  end.

(** [type(v).__name__] *)
Definition py_type_name (v : jvalue) : string :=
  match v with
  | JStr _ => "str"
  | JInt _ => "int"
  | JBool _ => "bool"
  | JNull => "NoneType"
  end.

(** [edit_file] applied to the JSON values of the tool input, which need
    not be strings: [PROJECT_ROOT / file_path] raises first for a
    non-string [file_path]; a non-string [find_text] raises at
    [find_text not in content], a non-string [replace_text] at
    [content.replace], each only once the checks before it have passed. *)
Definition edit_file_json (file_path find_text replace_text : jvalue)
    (allowed_dirs : option (list string)) : PyM fsys string :=
  match file_path with
  | JStr file_path =>
      let full_path := root_join file_path in
      match check_access file_path allowed_dirs with
      | Some msg => ret msg
      | None =>
          let! ex := path_exists full_path in
          if negb ex then ret (not_exist_error file_path) else
          if negb (String.eqb (path_suffix full_path) ".md") then ret not_md_error else
          let! content := read_text full_path in
          match find_text with
          | JStr find_text =>
              if negb (str_contains find_text content) then ret (text_not_found_error file_path) else
              match replace_text with
              | JStr replace_text =>
                  let new_content := replace_first find_text replace_text content in
                  let! _ := write_text full_path new_content in
                  ret (updated_message file_path)
              | v => raise (TypeError ("replace() argument 2 must be str, not " +:+ py_type_name v))
              end
          | v => raise (TypeError ("'in <string>' requires string as left operand, not " +:+
                                   py_type_name v))
          end
      end
  | v => raise (TypeError ("unsupported operand type(s) for /: 'PosixPath' and '" +:+
                           py_type_name v +:+ "'"))
  end.

Definition execute_tool (e : env) (tool_name : string) (tool_input : list (string * jvalue))
    (allowed_dirs : option (list string)) : PyM fsys string :=
  if String.eqb tool_name "edit_file" then
    let! file_path := lift (subscript tool_input "file_path") in
    let! find_text := lift (subscript tool_input "find_text") in
    let! replace_text := lift (subscript tool_input "replace_text") in
    edit_file_json file_path find_text replace_text allowed_dirs
  else if String.eqb tool_name "get_recent_updates" then
    ret (get_recent_updates (git e) (today e) (default (JInt 7) (dict_get tool_input "days")))
  else ret ("Unknown tool: " +:+ tool_name).

(* ------------------------------------------------------------------ *)
(** ** [ask_claude] (bot.py, lines 285-367) *)

Definition DQ : string := String (Ascii.ascii_of_nat 34) "".

Definition SYSTEM_PROMPT : string :=
  "You are a helpful assistant for project management and documentation.

## Available Skills

1. **Answer Questions** - Search and summarize information from project files
2. **Edit Files** - Use the edit_file tool to make changes to markdown files. Find the exact text you want to change, and replace it with new text.

## Guidelines
- Be concise and actionable
- Reference specific documents when available
- If you don't have information, say so clearly
- Use the edit_file tool when asked to update, add, or change anything in project files
- Always confirm what you changed after using a tool

## Memory
You have conversation memory within each channel/DM:
- 30 minute window: Memory resets after 30 minutes of inactivity
- 20 message limit: Keeps the last 20 exchanges before older messages are forgotten
- Each channel/DM has its own separate memory

## Weekly Update Command
When user asks for " +:+ DQ +:+
  "weekly update" +:+ DQ +:+
  ", " +:+ DQ +:+
  "recent updates" +:+ DQ +:+
  ", " +:+ DQ +:+
  "what's new" +:+ DQ +:+
  ", or similar:
1. Use the get_recent_updates tool to fetch git history from the last 7 days
2. Summarize the changes by project/area and highlight key updates

## Slack Formatting
Use Slack mrkdwn format, NOT standard markdown:
- Bold: *text* (not **text**" +:+ ")" +:+ "
- Italic: _text_
- Strikethrough: ~text~
- Code: `text` or ```code block```
- Lists: Use * or - with plain text
- No headers (# doesn't work) - use *Bold* for emphasis instead
- Links: <url|text>

Current project files will be provided as context.".

Definition context_message (prior : list message) (project_context user_message : string)
  : string :=
  match prior with
  | [] => "Here are the current project files:" +:+ NL2 +:+ project_context +:+ NL2 +:+
          "---" +:+ NL2 +:+ "User request: " +:+ user_message
  | _ :: _ => "(Project files still available from earlier in conversation)" +:+ NL2 +:+
              "User request: " +:+ user_message
  end.

Definition system_with_files (project_context : string) : string :=
  SYSTEM_PROMPT +:+ NL2 +:+ "Current project files:" +:+ NL +:+ project_context.

(** [claude.messages.create(...)] *)
Definition call_api (e : env) (system : string) (msgs : list message) : PyM world response :=
  let! w := get in
  let req := {| req_system := system; req_messages := msgs |} in
  let! _ := put (set_sent (sent w ++ [req]) w) in
  lift (api e (sent w) req).

(** [for block in response.content: if block.type == "tool_use": ...] *)
Fixpoint run_tools (e : env) (allowed_dirs : option (list string)) (bs : list block)
  : PyM world (list tool_result) :=
  match bs with
  | [] => ret []
  | ToolUseBlock id name input :: bs' =>
      let! r := on_files (execute_tool e name input allowed_dirs) in
      let! rs := run_tools e allowed_dirs bs' in
      ret ({| tool_use_id := id; tr_content := r |} :: rs)
  | TextBlock _ :: bs' => run_tools e allowed_dirs bs'
  end.

(** [while response.stop_reason == "tool_use": ...]; the tool rounds
    extend the local list [messages] only. *)
Fixpoint tool_loop (e : env) (fuel : nat) (allowed_dirs : option (list string))
    (system : string) (resp : response) (msgs : list message) : LoopM world response :=
  if String.eqb (stop_reason resp) "tool_use" then
    match fuel with
    | O => fun _ => None
    | S fuel' =>
        let? tool_results := liftP (run_tools e allowed_dirs (resp_content resp)) in
        let msgs' := msgs ++ [{| role := "assistant"; msg_content := CBlocks (resp_content resp) |};
                              {| role := "user"; msg_content := CToolResults tool_results |}] in
        let? response' := liftP (call_api e system msgs') in
        tool_loop e fuel' allowed_dirs system response' msgs'
    end
  else retL resp.

Fixpoint first_text (bs : list block) : option string :=
  match bs with
  | [] => None
  | TextBlock t :: _ => Some t
  | ToolUseBlock _ _ _ :: bs' => first_text bs'
  end.

Definition NO_MESSAGE : string := "I completed the action but have no additional message.".

(** Lines 287-310: the steps before the [try]. *)
Definition turn_setup (e : env) (user_message channel_id : string)
  : PyM world (option (list string) * string * list message) :=
  let! session := get_session channel_id (clock e) in
  let allowed_dirs := get_allowed_dirs channel_id in
  let! project_context := on_files (get_all_markdown_files allowed_dirs) in
  let ctx := context_message (messages session) project_context user_message in
  let! _ := session_append channel_id {| role := "user"; msg_content := CText ctx |} in
  let! msgs := session_messages channel_id in
  ret (allowed_dirs, project_context, msgs).

(** Lines 313-364: the body of the [try]. *)
Definition claude_exchange (e : env) (fuel : nat) (channel_id : string)
    (allowed_dirs : option (list string)) (project_context : string) (msgs : list message)
  : LoopM world string :=
  let system := system_with_files project_context in
  let? response := liftP (call_api e system msgs) in
  let? response := tool_loop e fuel allowed_dirs system response msgs in
  let response_text := default NO_MESSAGE (first_text (resp_content response)) in
  let? _ := liftP (session_append channel_id
                     {| role := "assistant"; msg_content := CText response_text |}) in
  let? _ := liftP (session_trim channel_id) in
  retL response_text.

Definition error_reply (ex : exn) : string := "Sorry, I encountered an error: " +:+ str_exn ex.

Definition ask_claude (e : env) (fuel : nat) (user_message channel_id : string)
  : LoopM world string :=
  let? setup := liftP (turn_setup e user_message channel_id) in
  let '(allowed_dirs, project_context, msgs) := setup in
  try_exceptL (claude_exchange e fuel channel_id allowed_dirs project_context msgs)
              (fun ex => retL (error_reply ex)).

(* ------------------------------------------------------------------ *)
(** ** The Slack handlers (bot.py, lines 370-412)

    Slack calls through [client] and [say] are recorded as actions; they
    are taken to succeed.  [chat_postMessage] answers with the timestamp
    [ts] Slack gives the new message, an oracle of the actions so far.  An
    event is read with the fields Slack's event schema gives it: the text
    (absent or a string), the channel, the [bot_id] of a message sent by a
    bot, and the [channel_type] ("im" for a direct message). *)

Inductive slack_action :=
| PostMessage (channel text : string)   (** [client.chat_postMessage] *)
| DeleteMessage (channel ts : string)   (** [client.chat_delete] *)
| Say (text : string).                  (** [say], in the event's channel *)

Record slack_event := {
  ev_text : option string;
  ev_channel : string;
  ev_bot_id : option string;
  ev_channel_type : option string
}.

Definition bot_state : Type := world * list slack_action.

Definition on_world {A} (m : LoopM world A) : LoopM bot_state A :=
  fun st => match m (fst st) with
            | Some (r, w') => Some (r, (w', snd st))
            | None => None
            end.

Definition slack_do (a : slack_action) : LoopM bot_state unit :=
  fun st => Some (inr tt, (fst st, snd st ++ [a])).

Definition chat_postMessage (ts_of : list slack_action -> string) (channel text : string)
  : LoopM bot_state string :=
  fun st => Some (inr (ts_of (snd st)), (fst st, snd st ++ [PostMessage channel text])).

(** [str.isspace] on the characters below 256: tab to carriage return,
    the separators 0x1c-0x1f, space, NEL (0x85) and no-break space (0xa0). *)
Definition py_isspace (c : ascii) : bool :=
  let n := Ascii.nat_of_ascii c in
  ((9 <=? n) && (n <=? 13) || (28 <=? n) && (n <=? 32) || (n =? 133) || (n =? 160))%nat.
Fixpoint py_lstrip (s : string) : string :=
  match s with
  | String c s' => if py_isspace c then py_lstrip s' else s
  | EmptyString => EmptyString
  end.
(** [s.strip()] on text typed by a user. *)
Definition py_strip (s : string) : string := rev_str (py_lstrip (rev_str (py_lstrip s))).

(** The text after the first [">"], if there is one. *)
Fixpoint after_gt (s : string) : option string :=
  match s with
  | EmptyString => None
  | String c r => if Ascii.eqb c ">" then Some r else after_gt r
  end.

(** [s.split(">", 1)[-1]] *)
Definition split_gt_last (s : string) : string :=
  match after_gt s with Some r => r | None => s end.

(** [if event.get("bot_id")]: an empty string is false. *)
Definition truthy_opt (o : option string) : bool :=
  match o with Some s => negb (String.eqb s "") | None => false end.

Definition THINKING : string := "_Thinking..._".
Definition GREETING : string := "Hi! Ask me anything about your project.".

(** Post the thinking message, ask the model, delete the thinking message,
    post the reply. *)
Definition answer (e : env) (fuel : nat) (ts_of : list slack_action -> string)
    (user_message channel : string) : LoopM bot_state unit :=
  let? thinking_ts := chat_postMessage ts_of channel THINKING in
  let? response := on_world (ask_claude e fuel user_message channel) in
  let? _ := slack_do (DeleteMessage channel thinking_ts) in
  slack_do (Say response).

Definition handle_mention (e : env) (fuel : nat) (ts_of : list slack_action -> string)
    (event : slack_event) : LoopM bot_state unit :=
  let user_message := py_strip (split_gt_last (default "" (ev_text event))) in
  let channel := ev_channel event in
  if negb (String.eqb user_message "") then answer e fuel ts_of user_message channel
  else slack_do (Say GREETING).

Definition handle_dm (e : env) (fuel : nat) (ts_of : list slack_action -> string)
    (event : slack_event) : LoopM bot_state unit :=
  if truthy_opt (ev_bot_id event) ||
     negb (match ev_channel_type event with Some t => String.eqb t "im" | None => false end)
  then retL tt
  else
    let user_message := default "" (ev_text event) in
    let channel := ev_channel event in
    if negb (String.eqb user_message "") then answer e fuel ts_of user_message channel
    else retL tt.

End Bot.


(* ================================================================== *)
(** * Concrete inputs

    A small knowledge base under [/srv/kb], a model that asks for one edit
    and then answers, a model that is down, and a repository whose
    [git rev-list] fails (no [HEAD] yet visible to it). *)

Definition DEMO_ROOT : list string := ["srv"; "kb"].

Definition demo_files : fsys :=
  <[["srv"; "kb"; "README.md"] := File "Team notes"]>
  (<[["srv"; "kb"; "CLAUDE.md"] := File "Bot instructions"]>
  (<[["srv"; "kb"; "project_alpha"] := Dir]>
  (<[["srv"; "kb"; "project_alpha"; "todo.md"] := File "TODO: ship A..A"]> ∅))).

(** Only the bot's own instructions at the root. *)
Definition claude_only_files : fsys :=
  <[["srv"; "kb"; "CLAUDE.md"] := File "Bot instructions"]> ∅.

(** [project_beta] cannot be inspected: [stat] on it fails. *)
Definition broken_files : fsys := <[["srv"; "kb"; "project_beta"] := Broken]> demo_files.

Definition demo_api (prev : list request) (_ : request) : exn + response :=
  match prev with
  | [] => inr {| stop_reason := "tool_use";
                 resp_content := [TextBlock "Updating the list.";
                                  ToolUseBlock "toolu_1" "edit_file"
                                    [("file_path", JStr "project_alpha/todo.md");
                                     ("find_text", JStr "TODO");
                                     ("replace_text", JStr "DONE")]] |}
  | _ => inr {| stop_reason := "end_turn"; resp_content := [TextBlock "Marked it done."] |}
  end.

Definition down_api (_ : list request) (_ : request) : exn + response :=
  inl (APIError "Overloaded").

Definition git_count_fails : git_oracle :=
  fun args =>
    if String.eqb (nth 1 args "") "rev-list" then
      inr {| returncode := 128; stdout := "";
             stderr := "fatal: ambiguous argument 'HEAD'" |}
    else if String.eqb (nth 3 args "") "--pretty=format:%h|%s|%ad" then
      inr {| returncode := 0; stdout := "a1b2c3d|Update notes|2026-10-15" +:+ NL +:+ "README.md";
             stderr := "" |}
    else if String.eqb (nth 4 args "") "--name-only" then
      inr {| returncode := 0; stdout := NL +:+ "README.md"; stderr := "" |}
    else inr {| returncode := 0; stdout := " 1 file changed"; stderr := "" |}.

Definition DEMO_NOW : Z := 1792224000.

(** 2026-10-17 as a proleptic Gregorian ordinal. *)
Definition DEMO_TODAY : Z := 739906.

Definition demo_env : env :=
  {| api := demo_api; git := git_count_fails; clock := DEMO_NOW; today := DEMO_TODAY |}.
Definition down_env : env :=
  {| api := down_api; git := git_count_fails; clock := DEMO_NOW; today := DEMO_TODAY |}.

(** A session already holding [MAX_MESSAGES] messages, active now. *)
Definition full_session : session :=
  {| messages := repeat {| role := "user"; msg_content := CText "earlier" |} MAX_MESSAGES;
     last_activity := DEMO_NOW |}.

Definition full_world : world :=
  {| SESSIONS := {[ "C1" := full_session ]}; files := demo_files; sent := [] |}.
Definition fresh_world : world := {| SESSIONS := ∅; files := demo_files; sent := [] |}.
Definition broken_world : world := {| SESSIONS := ∅; files := broken_files; sent := [] |}.

(** Files outside the project: [/srv/ops/runbook.md]. *)
Definition outside_files : fsys :=
  <[["srv"; "ops"] := Dir]> (<[["srv"; "ops"; "runbook.md"] := File "Restart with care"]> demo_files).

Definition CRLF : string := String CR (String LF "").

(** The to-do list saved with Windows line endings. *)
Definition crlf_files : fsys :=
  <[["srv"; "kb"; "project_alpha"; "todo.md"] := File ("TODO: ship A" +:+ CRLF +:+ "TODO: ship B")]>
  demo_files.

(** A model that asks for the git history, then answers. *)
Definition news_api (prev : list request) (_ : request) : exn + response :=
  match prev with
  | [] => inr {| stop_reason := "tool_use";
                 resp_content := [ToolUseBlock "toolu_7" "get_recent_updates" [("days", JInt 7)]] |}
  | _ => inr {| stop_reason := "end_turn"; resp_content := [TextBlock "One commit: Update notes."] |}
  end.

(** A model that asks for an edit without saying which file. *)
Definition forgetful_api (_ : list request) (_ : request) : exn + response :=
  inr {| stop_reason := "tool_use";
         resp_content := [ToolUseBlock "toolu_9" "edit_file"
                            [("file_path", JInt 5); ("replace_text", JStr "DONE")]] |}.

Definition news_env : env :=
  {| api := news_api; git := git_count_fails; clock := DEMO_NOW; today := DEMO_TODAY |}.
Definition forgetful_env : env :=
  {| api := forgetful_api; git := git_count_fails; clock := DEMO_NOW; today := DEMO_TODAY |}.

(** Sessions of two other channels, one active a minute ago and one idle
    for two hours. *)
Definition recent_session : session :=
  {| messages := [{| role := "user"; msg_content := CText "Hello" |}];
     last_activity := DEMO_NOW - 60 |}.
Definition stale_session : session :=
  {| messages := [{| role := "user"; msg_content := CText "Old question" |}];
     last_activity := DEMO_NOW - 7200 |}.
Definition shared_world : world :=
  {| SESSIONS := <["C2" := recent_session]> {[ "C3" := stale_session ]};
     files := demo_files; sent := [] |}.

(** The timestamp Slack gives a new message. *)
Definition demo_ts (acts : list slack_action) : string :=
  "1792224000.00010" +:+ str_Z (Z.of_nat (length acts)).

Definition mention_event : slack_event :=
  {| ev_text := Some "<@U0BOT> What is left to do?"; ev_channel := "C1";
     ev_bot_id := None; ev_channel_type := Some "channel" |}.

(** The state after a run, [d] when the run did not finish. *)
Definition snd_or {A B} (d : B) (o : option (A * B)) : B :=
  match o with Some (_, b) => b | None => d end.


(* ================================================================== *)
(** * Properties *)

(** ** Strings *)

Lemma strip_prefix_spec (p s r : string) :
  strip_prefix p s = Some r <-> s = p +:+ r.
Proof.
  revert s; induction p as [|c p IH]; intros s; simpl.
  - simpl. split; intros H. injection H; auto. subst; reflexivity.
  - destruct s as [|d s]; [split; discriminate|].
    destruct (Ascii.eqb c d) eqn:E.
    + apply Ascii.eqb_eq in E; subst d. rewrite IH. split; [intros ->|intros H; inversion H]; auto.
    + apply Ascii.eqb_neq in E. split; [discriminate|intros H; inversion H; congruence].
Qed.

Lemma str_contains_not_prefix (p c : ascii) (s p' : string) :
  strip_prefix (String c p') (String p s) = None ->
  str_contains (String c p') (String p s) = str_contains (String c p') s.
Proof. intros H. unfold str_contains at 1. fold str_contains. unfold startswith. rewrite H. reflexivity. Qed.

(** [replace_first] on a string that contains [old]: the first occurrence
    is replaced, nothing else changes. *)
Lemma replace_first_spec (old new s : string) :
  str_contains old s = true ->
  exists pre post,
    s = pre +:+ old +:+ post /\
    replace_first old new s = pre +:+ new +:+ post /\
    (forall a b, s = a +:+ old +:+ b -> String.length pre <= String.length a).
Proof.
  induction s as [|c s IH]; intros Hin.
  - simpl in Hin. unfold startswith in Hin.
    destruct (strip_prefix old "") as [r|] eqn:E; [|discriminate].
    apply strip_prefix_spec in E.
    destruct old as [|o old']; [|discriminate]. simpl in E. subst r.
    exists "", "". simpl. split; [reflexivity|]. split; [reflexivity|]. intros; lia.
  - destruct (strip_prefix old (String c s)) as [r|] eqn:E.
    + exists "", r. pose proof E as E'. apply strip_prefix_spec in E'.
      split; [exact E'|]. split; [simpl; rewrite E; reflexivity|]. intros; simpl; lia.
    + assert (Hs : str_contains old s = true).
      { simpl in Hin. unfold startswith in Hin. rewrite E in Hin. exact Hin. }
      destruct (IH Hs) as (pre & post & Hsplit & Hrep & Hmin).
      exists (String c pre), post. simpl. rewrite E. split; [rewrite Hsplit; reflexivity|].
      split; [rewrite Hrep; reflexivity|].
      intros [|a0 a] b Hab.
      * simpl in Hab. apply strip_prefix_spec in Hab. congruence.
      * simpl in Hab. inversion Hab; subst. simpl. apply le_n_S. eapply Hmin. exact H1.
Qed.

(** ** The file-editing tool *)

Section EditFileProofs.

Variable PROJECT_ROOT : list string.

Lemma is_prefix_of_snoc (l : list string) (x : string) :
  is_prefix_of (l ++ [x]) l = false.
Proof. induction l as [|y l IH]; simpl; [reflexivity|]. rewrite IH. apply andb_false_r. Qed.

(** C1: [edit_file] makes its checks in the order access, existence,
    extension, text; each failing check returns its own error message and
    leaves the file system as it was. *)
Theorem edit_file_error_order (file_path find_text replace_text : string)
    (allowed_dirs : option (list string)) (fs : fsys) :
  let full := root_join PROJECT_ROOT file_path in
  let run := edit_file PROJECT_ROOT file_path find_text replace_text allowed_dirs fs in
  (forall dirs, allowed_dirs = Some dirs ->
     in_list (file_dir_of file_path) dirs = false ->
     run = (inr (access_error (file_dir_of file_path) dirs), fs)) /\
  (check_access file_path allowed_dirs = None ->
     path_exists PROJECT_ROOT full fs = (inr false, fs) ->
     run = (inr (not_exist_error file_path), fs)) /\
  (check_access file_path allowed_dirs = None ->
     path_exists PROJECT_ROOT full fs = (inr true, fs) ->
     path_suffix full <> ".md" ->
     run = (inr not_md_error, fs)) /\
  (check_access file_path allowed_dirs = None ->
     path_exists PROJECT_ROOT full fs = (inr true, fs) ->
     path_suffix full = ".md" ->
     forall content, read_text PROJECT_ROOT full fs = (inr content, fs) ->
     str_contains find_text content = false ->
     run = (inr (text_not_found_error file_path), fs)).
Proof.
  cbv zeta. repeat split.
  - intros dirs -> Hin. unfold edit_file, check_access. rewrite Hin. reflexivity.
  - intros Hacc Hex. unfold edit_file. rewrite Hacc. unfold bind at 1. rewrite Hex. reflexivity.
  - intros Hacc Hex Hsuf. unfold edit_file. rewrite Hacc. unfold bind at 1. rewrite Hex.
    simpl. destruct (String.eqb_spec (path_suffix (root_join PROJECT_ROOT file_path)) ".md");
      [contradiction|reflexivity].
  - intros Hacc Hex Hsuf content Hread Hnot. unfold edit_file. rewrite Hacc.
    unfold bind at 1. rewrite Hex. simpl. rewrite Hsuf. simpl.
    unfold bind. rewrite Hread. rewrite Hnot. reflexivity.
Qed.

Lemma read_text_file (fs : fsys) (pp : ppath) (p : list string) (c : string) :
  resolve PROJECT_ROOT fs pp = inr (Some p) ->
  entry_at PROJECT_ROOT fs p = Some (File c) ->
  read_text PROJECT_ROOT pp fs = (inr (universal_newlines c), fs) /\
  path_exists PROJECT_ROOT pp fs = (inr true, fs) /\
  (forall s, write_text PROJECT_ROOT pp s fs = (inr tt, <[p := File s]> fs)).
Proof.
  intros Hres Hent. unfold read_text, path_exists, write_text, get, bind.
  rewrite Hres, Hent. repeat split.
Qed.

(** C2: when every check passes and [find_text] occurs in the content as
    read, [edit_file] writes back the content with exactly its first
    occurrence replaced and returns the message naming the path; content
    ["A..A"], find ["A"], replace ["B"] gives ["B..A"]. *)
Theorem edit_file_replaces_first (file_path find_text replace_text : string)
    (allowed_dirs : option (list string)) (fs : fsys) (p : list string) (c : string) :
  check_access file_path allowed_dirs = None ->
  resolve PROJECT_ROOT fs (root_join PROJECT_ROOT file_path) = inr (Some p) ->
  entry_at PROJECT_ROOT fs p = Some (File c) ->
  path_suffix (root_join PROJECT_ROOT file_path) = ".md" ->
  str_contains find_text (universal_newlines c) = true ->
  (exists pre post,
    universal_newlines c = pre +:+ find_text +:+ post /\
    (forall a b, universal_newlines c = a +:+ find_text +:+ b ->
                 String.length pre <= String.length a) /\
    edit_file PROJECT_ROOT file_path find_text replace_text allowed_dirs fs =
      (inr (updated_message file_path), <[p := File (pre +:+ replace_text +:+ post)]> fs)) /\
  replace_first "A" "B" "A..A" = "B..A".
Proof.
  intros Hacc Hres Hent Hsuf Hin.
  destruct (read_text_file fs _ p c Hres Hent) as (Hread & Hex & Hwrite).
  split; [|reflexivity].
  destruct (replace_first_spec find_text replace_text _ Hin) as (pre & post & Hsplit & Hrep & Hmin).
  exists pre, post. split; [exact Hsplit|]. split; [exact Hmin|].
  unfold edit_file. rewrite Hacc. unfold bind at 1. rewrite Hex. simpl. rewrite Hsuf. simpl.
  unfold bind. rewrite Hread. rewrite Hin. simpl. rewrite Hrep, Hwrite. reflexivity.
Qed.

(** C7: the access check looks only at the first component of
    [file_path]: under the scope [["project_alpha"]] the path
    ["project_alpha/../README.md"] passes it, resolves to the root-level
    [README.md], outside every allowed partition, and [edit_file] reads and
    rewrites that file. *)
Theorem edit_file_dotdot_escapes (fs : fsys) (c find_text replace_text : string) :
  entry_at PROJECT_ROOT fs (PROJECT_ROOT ++ ["project_alpha"]) = Some Dir ->
  fs !! (PROJECT_ROOT ++ ["README.md"]) = Some (File c) ->
  str_contains find_text (universal_newlines c) = true ->
  file_dir_of "project_alpha/../README.md" = Some "project_alpha" /\
  check_access "project_alpha/../README.md" (Some ["project_alpha"]) = None /\
  resolve PROJECT_ROOT fs (root_join PROJECT_ROOT "project_alpha/../README.md")
    = inr (Some (PROJECT_ROOT ++ ["README.md"])) /\
  edit_file PROJECT_ROOT "project_alpha/../README.md" find_text replace_text
      (Some ["project_alpha"]) fs =
    (inr (updated_message "project_alpha/../README.md"),
     <[PROJECT_ROOT ++ ["README.md"] :=
         File (replace_first find_text replace_text (universal_newlines c))]> fs).
Proof.
  intros Hdir Hfile Hin.
  assert (Hres : resolve PROJECT_ROOT fs (root_join PROJECT_ROOT "project_alpha/../README.md")
                 = inr (Some (PROJECT_ROOT ++ ["README.md"]))).
  { unfold resolve, root_join. simpl. rewrite Hdir. simpl. rewrite removelast_last. reflexivity. }
  assert (Hent : entry_at PROJECT_ROOT fs (PROJECT_ROOT ++ ["README.md"]) = Some (File c)).
  { unfold entry_at. rewrite is_prefix_of_snoc. exact Hfile. }
  assert (Hsuf : path_suffix (root_join PROJECT_ROOT "project_alpha/../README.md") = ".md").
  { unfold path_suffix, path_name, root_join. simpl.
    replace (PROJECT_ROOT ++ ["project_alpha"; ".."; "README.md"])
      with ((PROJECT_ROOT ++ ["project_alpha"; ".."]) ++ ["README.md"])
      by (rewrite <- app_assoc; reflexivity).
    rewrite last_snoc. reflexivity. }
  destruct (read_text_file fs _ _ c Hres Hent) as (Hread & Hex & Hwrite).
  assert (Hacc : check_access "project_alpha/../README.md" (Some ["project_alpha"]) = None)
    by reflexivity.
  split; [reflexivity|]. split; [exact Hacc|]. split; [exact Hres|].
  unfold edit_file. rewrite Hacc. unfold bind at 1. rewrite Hex. simpl.
  rewrite Hsuf. simpl. unfold bind. rewrite Hread. rewrite Hin. simpl. rewrite Hwrite. reflexivity.
Qed.

End EditFileProofs.

(** ** The session store *)

Section SessionProofs.

Lemma get_session_spec (channel_id : string) (now : Z) (w : world) :
  exists sess w',
    get_session channel_id now w = (inr sess, w') /\
    SESSIONS w' !! channel_id = Some sess /\
    last_activity sess = now /\
    files w' = files w /\ sent w' = sent w /\
    (forall s, SESSIONS w !! channel_id = Some s ->
       (now - last_activity s > SESSION_TIMEOUT)%Z -> sess = fresh_session now) /\
    (forall s, SESSIONS w !! channel_id = Some s ->
       (now - last_activity s <= SESSION_TIMEOUT)%Z ->
       sess = {| messages := messages s; last_activity := now |}) /\
    (SESSIONS w !! channel_id = None -> sess = fresh_session now).
Proof.
  unfold get_session, bind, get, put, ret. simpl.
  set (live := filter _ (SESSIONS w)).
  eexists _, _. split; [reflexivity|]. simpl.
  rewrite lookup_insert_eq. split; [reflexivity|].
  split; [destruct (live !! channel_id) as [s|]; [destruct (_ >? _)%Z|]; reflexivity|].
  split; [reflexivity|]. split; [reflexivity|]. split; [|split].
  - intros s Hs Hexp.
    assert (Hn : live !! channel_id = None).
    { apply map_lookup_filter_None_2. right. intros x Hx. rewrite Hs in Hx.
      injection Hx as <-. simpl. lia. }
    rewrite Hn. reflexivity.
  - intros s Hs Hle.
    assert (Hl : live !! channel_id = Some s).
    { apply map_lookup_filter_Some_2; [exact Hs|]. simpl. exact Hle. }
    rewrite Hl. destruct (now - last_activity s >? SESSION_TIMEOUT)%Z eqn:E; [lia|reflexivity].
  - intros Hs.
    assert (Hn : live !! channel_id = None).
    { apply map_lookup_filter_None_2. left. exact Hs. }
    rewrite Hn. reflexivity.
Qed.

(** C4: a session whose last activity is more than [SESSION_TIMEOUT]
    (30 minutes) before [now] is replaced by a fresh session with no
    messages; one accessed within 30 minutes, boundary included, keeps its
    messages and gets [last_activity = now]. *)
Theorem get_session_expires (channel_id : string) (now : Z) (w : world) (s : session) :
  SESSIONS w !! channel_id = Some s ->
  let '(r, w') := get_session channel_id now w in
  ((now - last_activity s > SESSION_TIMEOUT)%Z ->
     r = inr (fresh_session now) /\ messages (fresh_session now) = [] /\
     SESSIONS w' !! channel_id = Some (fresh_session now)) /\
  ((now - last_activity s <= SESSION_TIMEOUT)%Z ->
     r = inr {| messages := messages s; last_activity := now |} /\
     SESSIONS w' !! channel_id = Some {| messages := messages s; last_activity := now |}).
Proof.
  intros Hs.
  destruct (get_session_spec channel_id now w)
    as (sess & w' & Hrun & Hstored & _ & _ & _ & Hexp & Hkeep & _).
  rewrite Hrun. split.
  - intros H. specialize (Hexp s Hs H). subst sess. auto.
  - intros H. specialize (Hkeep s Hs H). subst sess. auto.
Qed.

End SessionProofs.

(** ** Reading the documents *)

Section LoadProofs.

Variable PROJECT_ROOT : list string.


Lemma bind_inr {S A B} (m : PyM S A) (k : A -> PyM S B) (s s' : S) (b : B) :
  bind m k s = (inr b, s') -> exists a s1, m s = (inr a, s1) /\ k a s1 = (inr b, s').
Proof.
  unfold bind. destruct (m s) as [[e|a] s1]; [discriminate|]. eauto.
Qed.

Lemma ro_bind {S A B} (m : PyM S A) (k : A -> PyM S B) :
  read_only m -> (forall a, read_only (k a)) -> read_only (bind m k).
Proof.
  intros Hm Hk s. unfold bind. specialize (Hm s).
  destruct (m s) as [[e|a] s1]; simpl in *; subst; [reflexivity|apply Hk].
Qed.

Lemma ro_ret {S A} (a : A) : read_only (S := S) (ret a).
Proof. intros s; reflexivity. Qed.

Lemma ro_raise {S A} (e : exn) : read_only (S := S) (A := A) (raise e).
Proof. intros s; reflexivity. Qed.

Lemma ro_lift {S A} (r : exn + A) : read_only (S := S) (lift r).
Proof. intros s; reflexivity. Qed.

Lemma ro_get_bind {S A} (k : S -> PyM S A) :
  (forall s, read_only (k s)) -> read_only (bind get k).
Proof. intros Hk s. apply Hk. Qed.

Lemma ro_try {S A} (m : PyM S A) (h : exn -> PyM S A) :
  read_only m -> (forall e, read_only (h e)) -> read_only (try_except m h).
Proof.
  intros Hm Hh s. unfold try_except. specialize (Hm s).
  destruct (m s) as [[e|a] s1]; simpl in *; subst; [apply Hh|reflexivity].
Qed.

Lemma ro_mapM {S A B} (f : A -> PyM S B) (l : list A) :
  (forall a, read_only (f a)) -> read_only (mapM f l).
Proof.
  intros Hf. induction l as [|x l IH]; simpl.
  - apply ro_ret.
  - apply ro_bind; [apply Hf|]. intros y. apply ro_bind; [exact IH|]. intros; apply ro_ret.
Qed.

Lemma ro_path_exists (pp : ppath) : read_only (path_exists PROJECT_ROOT pp).
Proof.
  intros fs. unfold path_exists, bind, get.
  destruct (resolve PROJECT_ROOT fs pp) as [e|[p|]]; [reflexivity| |reflexivity].
  destruct (entry_at PROJECT_ROOT fs p) as [[]|]; reflexivity.
Qed.

Lemma ro_read_text (pp : ppath) : read_only (read_text PROJECT_ROOT pp).
Proof.
  intros fs. unfold read_text, bind, get.
  destruct (resolve PROJECT_ROOT fs pp) as [e|[p|]]; [reflexivity| |reflexivity].
  destruct (entry_at PROJECT_ROOT fs p) as [[]|]; reflexivity.
Qed.

Lemma ro_project_items (allowed_dirs : option (list string)) (projects : list (string * string)) :
  read_only (project_items PROJECT_ROOT allowed_dirs projects).
Proof.
  induction projects as [|[d n] projects IH]; simpl; [apply ro_ret|].
  apply ro_bind; [|intros; apply ro_bind; [exact IH|intros; apply ro_ret]].
  destruct (match allowed_dirs with Some dirs => _ | None => false end).
  - apply ro_ret.
  - apply ro_bind; [apply ro_path_exists|]. intros [|].
    + apply ro_get_bind. intros; apply ro_ret.
    + apply ro_ret.
Qed.

Lemma ro_get_all_markdown_files (allowed_dirs : option (list string)) :
  read_only (get_all_markdown_files PROJECT_ROOT allowed_dirs).
Proof.
  unfold get_all_markdown_files, files_to_read.
  apply ro_bind.
  - apply ro_get_bind. intros fs. apply ro_bind; [apply ro_project_items|intros; apply ro_ret].
  - intros items. apply ro_bind; [|intros; apply ro_ret].
    apply ro_mapM. intros it. unfold render_item. apply ro_try.
    + apply ro_bind; [apply ro_read_text|intros; apply ro_ret].
    + intros; apply ro_ret.
Qed.

End LoadProofs.

Section Selection.

Variable PROJECT_ROOT : list string.

Lemma strip_list_prefix_app (base r : list string) :
  strip_list_prefix base (base ++ r) = Some r.
Proof. induction base as [|b base IH]; simpl; [reflexivity|]. rewrite String.eqb_refl. exact IH. Qed.

Lemma strip_list_prefix_Some (base p r : list string) :
  strip_list_prefix base p = Some r -> p = base ++ r.
Proof.
  revert p; induction base as [|b base IH]; intros p H; simpl in *.
  - congruence.
  - destruct p as [|x p]; [discriminate|].
    destruct (String.eqb_spec b x); [subst x|discriminate]. f_equal. apply IH, H.
Qed.

Lemma glob_md_elem (fs : fsys) (dir : list string) (n : string) :
  n ∈ glob_md fs dir <-> (exists e, fs !! (dir ++ [n]) = Some e) /\ endswith n ".md" = true.
Proof.
  unfold glob_md. rewrite list_elem_of_omap. split.
  - intros [[k v] [Hin Hf]]. apply elem_of_map_to_list in Hin. simpl in Hf.
    destruct (strip_list_prefix dir k) as [[|n' [|]]|] eqn:E; try discriminate.
    destruct (endswith n' ".md") eqn:Em; [|discriminate]. injection Hf as <-.
    apply strip_list_prefix_Some in E. subst k. eauto.
  - intros [[e He] Hmd]. exists (dir ++ [n], e). split.
    + apply elem_of_map_to_list. exact He.
    + simpl. rewrite strip_list_prefix_app, Hmd. reflexivity.
Qed.

Lemma glob_md_rec_elem (fs : fsys) (dir rel : list string) :
  rel ∈ glob_md_rec fs dir <->
  (exists e, fs !! (dir ++ rel) = Some e) /\
  (exists n, last rel = Some n /\ endswith n ".md" = true).
Proof.
  unfold glob_md_rec. rewrite list_elem_of_omap. split.
  - intros [[k v] [Hin Hf]]. apply elem_of_map_to_list in Hin. simpl in Hf.
    destruct (strip_list_prefix dir k) as [rel'|] eqn:E; [|discriminate].
    destruct (last rel') as [n|] eqn:El; [|discriminate].
    destruct (endswith n ".md") eqn:Em; [|discriminate]. injection Hf as <-.
    apply strip_list_prefix_Some in E. subst k. eauto.
  - intros [[e He] [n [Hl Hmd]]]. exists (dir ++ rel, e). split.
    + apply elem_of_map_to_list. exact He.
    + simpl. rewrite strip_list_prefix_app, Hl, Hmd. reflexivity.
Qed.

Lemma last_Some_ne_nil (l : list string) (n : string) : last l = Some n -> l <> [].
Proof. intros H ->. discriminate. Qed.

Lemma project_dir_exists (fs : fsys) (d : string) :
  entry_at PROJECT_ROOT fs (PROJECT_ROOT ++ [d]) = Some Dir ->
  path_exists PROJECT_ROOT {| pp_base := PROJECT_ROOT ++ [d]; pp_parts := [] |} fs = (inr true, fs).
Proof. intros H. unfold path_exists, bind, get. simpl. rewrite H. reflexivity. Qed.

Lemma project_items_complete (projects : list (string * string)) (fs fs' : fsys)
    (items : list md_item) :
  project_items PROJECT_ROOT None projects fs = (inr items, fs') ->
  forall d name rel, (d, name) ∈ projects ->
  entry_at PROJECT_ROOT fs (PROJECT_ROOT ++ [d]) = Some Dir ->
  rel ∈ glob_md_rec fs (PROJECT_ROOT ++ [d]) ->
  exists it, it ∈ items /\ item_path it = (PROJECT_ROOT ++ [d]) ++ rel.
Proof.
  revert items fs'. induction projects as [|[d0 n0] projects IH]; intros items fs' Hrun d name rel Hin Hdir Hrel.
  - apply elem_of_nil in Hin. contradiction.
  - simpl in Hrun. apply bind_inr in Hrun as (here & s1 & Hhere & Hrest).
    apply bind_inr in Hrest as (more & s2 & Hmore & Hret). injection Hret as <- <-.
    unfold bind at 1 in Hhere.
    destruct (path_exists PROJECT_ROOT {| pp_base := PROJECT_ROOT ++ [d0]; pp_parts := [] |} fs)
      as [[e|ex] s3] eqn:Hp; [discriminate|].
    pose proof (ro_path_exists PROJECT_ROOT {| pp_base := PROJECT_ROOT ++ [d0]; pp_parts := [] |} fs)
      as R. rewrite Hp in R. simpl in R. subst s3.
    apply elem_of_cons in Hin as [Heq|Hin].
    + injection Heq as -> ->. rewrite (project_dir_exists fs d0 Hdir) in Hp.
      injection Hp as <-. unfold bind, get, ret in Hhere. injection Hhere as <- <-.
      eexists. split; [apply elem_of_app; left; apply list_elem_of_fmap; exists rel; split; [reflexivity|exact Hrel]|].
      reflexivity.
    + assert (s1 = fs) as ->.
      { destruct ex; unfold bind, get, ret in Hhere; injection Hhere as _ <-; reflexivity. }
      destruct (IH more s2 Hmore d name rel Hin Hdir Hrel) as (it & Hit & Hp').
      exists it. split; [apply elem_of_app; right; exact Hit|exact Hp'].
Qed.

Lemma project_items_sound (allowed_dirs : option (list string)) (projects : list (string * string))
    (fs fs' : fsys) (items : list md_item) :
  project_items PROJECT_ROOT allowed_dirs projects fs = (inr items, fs') ->
  forall it, it ∈ items ->
  exists d name rel, (d, name) ∈ projects /\
    (forall dirs, allowed_dirs = Some dirs -> in_list (Some d) dirs = true) /\
    item_path it = (PROJECT_ROOT ++ [d]) ++ rel /\ rel <> [].
Proof.
  revert items fs fs'. induction projects as [|[d0 n0] projects IH]; intros items fs fs' Hrun it Hit.
  - simpl in Hrun. injection Hrun as <- <-. apply elem_of_nil in Hit. contradiction.
  - simpl in Hrun. apply bind_inr in Hrun as (here & s1 & Hhere & Hrest).
    apply bind_inr in Hrest as (more & s2 & Hmore & Hret). injection Hret as <- <-.
    apply elem_of_app in Hit as [Hit|Hit].
    + assert (Hmain : forall (acc : forall dirs, allowed_dirs = Some dirs -> in_list (Some d0) dirs = true),
        (let! ex := path_exists PROJECT_ROOT {| pp_base := PROJECT_ROOT ++ [d0]; pp_parts := [] |} in
         if ex then
           let! fs0 := get in
           ret (map (fun rel =>
                  {| item_path := (PROJECT_ROOT ++ [d0]) ++ rel;
                     item_label := join "/" (d0 :: rel) +:+ " (" +:+ n0 +:+ ")";
                     item_name := default "" (last rel) |})
                (glob_md_rec fs0 (PROJECT_ROOT ++ [d0])))
         else ret []) fs = (inr here, s1) ->
        exists d name rel, (d, name) ∈ (d0, n0) :: projects /\
          (forall dirs, allowed_dirs = Some dirs -> in_list (Some d) dirs = true) /\
          item_path it = (PROJECT_ROOT ++ [d]) ++ rel /\ rel <> []).
      { intros acc Hh. apply bind_inr in Hh as (ex & s3 & _ & Hh).
        destruct ex.
        - unfold bind, get, ret in Hh. injection Hh as <- <-.
          apply list_elem_of_fmap in Hit as (rel & -> & Hrel).
          apply glob_md_rec_elem in Hrel as (_ & n & Hl & _).
          exists d0, n0, rel. split; [left|]. split; [exact acc|].
          split; [reflexivity|eapply last_Some_ne_nil; exact Hl].
        - unfold ret in Hh. injection Hh as <- <-. apply elem_of_nil in Hit. contradiction. }
      destruct allowed_dirs as [dirs|].
      * simpl in Hhere. destruct (existsb (String.eqb d0) dirs) eqn:Ein; simpl in Hhere.
        -- apply Hmain; [|exact Hhere]. intros dirs' Hd. injection Hd as <-. exact Ein.
        -- unfold ret in Hhere. injection Hhere as <- <-. apply elem_of_nil in Hit. contradiction.
      * apply Hmain; [intros dirs' Hd; discriminate|exact Hhere].
    + destruct (IH _ _ _ Hmore it Hit) as (d & name & rel & Hin & Hacc & Hp & Hne).
      exists d, name, rel. split; [right; exact Hin|]. auto.
Qed.

End Selection.

Section LoadTheorems.

Variable PROJECT_ROOT : list string.

Lemma render_item_shape (it : md_item) (fs : fsys) :
  exists r, render_item PROJECT_ROOT it fs = (inr ("## File: " +:+ r), fs).
Proof.
  unfold render_item, try_except, bind.
  pose proof (ro_read_text PROJECT_ROOT {| pp_base := item_path it; pp_parts := [] |} fs) as R.
  destruct (read_text PROJECT_ROOT _ fs) as [[e|c] s1]; simpl in R; subst s1; eexists; reflexivity.
Qed.

Lemma mapM_render (items : list md_item) (fs : fsys) :
  exists secs, mapM (render_item PROJECT_ROOT) items fs = (inr secs, fs) /\
    length secs = length items /\
    Forall (fun s => exists r, s = "## File: " +:+ r) secs.
Proof.
  induction items as [|it items IH]; simpl.
  - exists []. auto.
  - destruct (render_item_shape it fs) as [r Hr]. destruct IH as (secs & Hm & Hl & Hf).
    exists (("## File: " +:+ r) :: secs). unfold bind at 1. rewrite Hr.
    unfold bind. rewrite Hm. split; [reflexivity|]. split; [simpl; congruence|].
    constructor; [eauto|exact Hf].
Qed.

Lemma join_cons_prefix (sep x : string) (l : list string) :
  exists t, join sep (x :: l) = x +:+ t.
Proof.
  destruct l as [|y l].
  - exists "". simpl. induction x as [|c x IH]; simpl; [reflexivity|]. rewrite <- IH. reflexivity.
  - exists (sep +:+ join sep (y :: l)). reflexivity.
Qed.

Lemma files_to_read_inv (allowed_dirs : option (list string)) (fs : fsys) (items : list md_item) :
  fst (files_to_read PROJECT_ROOT allowed_dirs fs) = inr items ->
  exists proj fs', project_items PROJECT_ROOT allowed_dirs PROJECTS fs = (inr proj, fs') /\
    items = root_items PROJECT_ROOT allowed_dirs fs ++ proj.
Proof.
  intros H. unfold files_to_read, bind, get, ret in H.
  destruct (project_items PROJECT_ROOT allowed_dirs PROJECTS fs) as [[e|proj] fs'] eqn:E;
    simpl in H; [discriminate|]. injection H as <-. eauto.
Qed.

Lemma ro_files_to_read (allowed_dirs : option (list string)) :
  read_only (files_to_read PROJECT_ROOT allowed_dirs).
Proof.
  unfold files_to_read. apply ro_get_bind. intros fs.
  apply ro_bind; [apply ro_project_items|intros; apply ro_ret].
Qed.

Lemma get_all_markdown_files_sentinel (allowed_dirs : option (list string)) (fs : fsys)
    (items : list md_item) :
  fst (files_to_read PROJECT_ROOT allowed_dirs fs) = inr items ->
  (fst (get_all_markdown_files PROJECT_ROOT allowed_dirs fs) = inr NO_FILES <-> items = []).
Proof.
  intros H. unfold get_all_markdown_files. unfold bind at 1.
  pose proof (ro_files_to_read allowed_dirs fs) as R.
  destruct (files_to_read PROJECT_ROOT allowed_dirs fs) as [r s1] eqn:E.
  simpl in H, R. subst r s1.
  destruct (mapM_render items fs) as (secs & Hm & Hl & Hf).
  unfold bind. rewrite Hm. simpl.
  destruct secs as [|x secs].
  - destruct items; [|discriminate]. tauto.
  - destruct items; [discriminate|]. split; [|discriminate]. intros Hj. exfalso.
    inversion Hf as [|? ? [r ->] _]; subst.
    destruct (join_cons_prefix SECTION_SEP ("## File: " +:+ r) secs) as [t Ht].
    assert (Hne : join SECTION_SEP (("## File: " +:+ r) :: secs) <> NO_FILES).
    { rewrite Ht. intros Heq. inversion Heq. }
    apply Hne. injection Hj as Hj. exact Hj.
Qed.

(** C6: with full access, the documents read are every root-level [*.md]
    file except [CLAUDE.md] and every [*.md] file under each configured
    project directory that exists, and never [CLAUDE.md] at the root; with
    a restricted scope, only files under allowed project directories, no
    root-level file; the result is the sentinel exactly when no file is
    read. *)
Theorem get_all_markdown_files_scope (fs : fsys) (allowed_dirs : option (list string))
    (items : list md_item) :
  fst (files_to_read PROJECT_ROOT allowed_dirs fs) = inr items ->
  (allowed_dirs = None ->
     (forall n e, fs !! (PROJECT_ROOT ++ [n]) = Some e -> endswith n ".md" = true ->
        n <> "CLAUDE.md" -> exists it, it ∈ items /\ item_path it = PROJECT_ROOT ++ [n]) /\
     (forall d name rel n e, (d, name) ∈ PROJECTS ->
        entry_at PROJECT_ROOT fs (PROJECT_ROOT ++ [d]) = Some Dir ->
        fs !! (PROJECT_ROOT ++ d :: rel) = Some e -> last rel = Some n ->
        endswith n ".md" = true ->
        exists it, it ∈ items /\ item_path it = PROJECT_ROOT ++ d :: rel) /\
     (forall it, it ∈ items -> item_path it <> PROJECT_ROOT ++ ["CLAUDE.md"])) /\
  (forall dirs, allowed_dirs = Some dirs -> forall it, it ∈ items ->
     exists d name rel, (d, name) ∈ PROJECTS /\ in_list (Some d) dirs = true /\
       item_path it = PROJECT_ROOT ++ d :: rel /\ rel <> []) /\
  (fst (get_all_markdown_files PROJECT_ROOT allowed_dirs fs) = inr NO_FILES <-> items = []).
Proof.
  intros H. pose proof (get_all_markdown_files_sentinel allowed_dirs fs items H) as Hsent.
  apply files_to_read_inv in H as (proj & fs' & Hproj & ->).
  split; [|split; [|exact Hsent]].
  - intros ->. split; [|split].
    + intros n e He Hmd Hn.
      exists {| item_path := PROJECT_ROOT ++ [n]; item_label := n; item_name := n |}.
      split; [|reflexivity].
      apply elem_of_app. left. unfold root_items. apply list_elem_of_In.
      apply (in_map (fun n0 => {| item_path := PROJECT_ROOT ++ [n0]; item_label := n0; item_name := n0 |})).
      apply filter_In.
      split; [apply list_elem_of_In, glob_md_elem; eauto|].
      destruct (String.eqb_spec n "CLAUDE.md"); [contradiction|reflexivity].
    + intros d name rel n e Hin Hdir He Hl Hmd.
      assert (Hrel : rel ∈ glob_md_rec fs (PROJECT_ROOT ++ [d])).
      { apply glob_md_rec_elem. split; [exists e; rewrite <- app_assoc; exact He|eauto]. }
      destruct (project_items_complete PROJECT_ROOT PROJECTS fs fs' proj Hproj d name rel Hin Hdir Hrel)
        as (it & Hit & Hp).
      exists it. split; [apply elem_of_app; right; exact Hit|]. rewrite Hp, <- app_assoc. reflexivity.
    + intros it Hit Hp. apply elem_of_app in Hit as [Hit|Hit].
      * unfold root_items in Hit. apply list_elem_of_In, in_map_iff in Hit as (n & <- & Hn).
        apply filter_In in Hn as [_ Hn]. simpl in Hp. apply app_inv_head in Hp.
        injection Hp as ->. discriminate.
      * destruct (project_items_sound PROJECT_ROOT None PROJECTS fs fs' proj Hproj it Hit)
          as (d & name & rel & _ & _ & Hp' & Hne).
        rewrite Hp' in Hp. apply (f_equal length) in Hp. rewrite !length_app in Hp.
        destruct rel as [|? rel]; [contradiction|]. simpl in Hp. lia.
  - intros dirs -> it Hit. apply elem_of_app in Hit as [Hit|Hit].
    + simpl in Hit. apply elem_of_nil in Hit. contradiction.
    + destruct (project_items_sound PROJECT_ROOT (Some dirs) PROJECTS fs fs' proj Hproj it Hit)
        as (d & name & rel & Hin & Hacc & Hp & Hne).
      exists d, name, rel. split; [exact Hin|]. split; [apply Hacc; reflexivity|].
      rewrite Hp, <- app_assoc. auto.
Qed.

End LoadTheorems.

(** ** The turn: [ask_claude] *)

Section TurnProofs.

Variable PROJECT_ROOT : list string.

Lemma on_files_frame {A} (m : PyM fsys A) (w w' : world) (r : exn + A) :
  on_files m w = (r, w') -> SESSIONS w' = SESSIONS w /\ sent w' = sent w.
Proof. unfold on_files. destruct (m (files w)). intros H; injection H as _ <-. auto. Qed.

Lemma run_tools_frame (e : env) (allowed_dirs : option (list string)) (bs : list block)
    (w w' : world) (r : exn + list tool_result) :
  run_tools PROJECT_ROOT e allowed_dirs bs w = (r, w') ->
  SESSIONS w' = SESSIONS w /\ sent w' = sent w.
Proof.
  revert w w' r. induction bs as [|[t|id name input] bs IH]; intros w w' r H; simpl in H.
  - injection H as _ <-. auto.
  - exact (IH _ _ _ H).
  - unfold bind at 1 in H.
    destruct (on_files (execute_tool PROJECT_ROOT e name input allowed_dirs) w) as [[ex|x] w1] eqn:E1;
      apply on_files_frame in E1 as [Hs1 Ht1].
    + injection H as _ <-. auto.
    + unfold bind at 1 in H.
      destruct (run_tools PROJECT_ROOT e allowed_dirs bs w1) as [[ex|xs] w2] eqn:E2;
        apply IH in E2 as [Hs2 Ht2].
      * injection H as _ <-. split; congruence.
      * unfold ret in H. injection H as _ <-. split; congruence.
Qed.

Lemma call_api_frame (e : env) (system : string) (msgs : list message) (w w' : world)
    (r : exn + response) :
  call_api e system msgs w = (r, w') ->
  SESSIONS w' = SESSIONS w /\
  sent w' = sent w ++ [{| req_system := system; req_messages := msgs |}].
Proof. unfold call_api, bind, get, put, lift. simpl. intros H; injection H as _ <-. auto. Qed.

Lemma tool_loop_frame (e : env) (fuel : nat) (allowed_dirs : option (list string))
    (system : string) (resp : response) (msgs : list message) (w w' : world)
    (r : exn + response) :
  tool_loop PROJECT_ROOT e fuel allowed_dirs system resp msgs w = Some (r, w') ->
  SESSIONS w' = SESSIONS w /\
  exists reqs, sent w' = sent w ++ reqs /\ Forall (fun q => req_system q = system) reqs.
Proof.
  revert resp msgs w. induction fuel as [|fuel IH]; intros resp msgs w H; simpl in H.
  - destruct (String.eqb (stop_reason resp) "tool_use"); [discriminate|].
    injection H as _ <-. split; [reflexivity|]. exists []. rewrite app_nil_r. auto.
  - destruct (String.eqb (stop_reason resp) "tool_use").
    + unfold bindL, liftP at 1 in H.
      destruct (run_tools PROJECT_ROOT e allowed_dirs (resp_content resp) w) as [[ex|trs] w1] eqn:E1;
        apply run_tools_frame in E1 as [Hs1 Ht1].
      * injection H as _ <-. split; [exact Hs1|]. exists []. rewrite app_nil_r. auto.
      * unfold bindL, liftP at 1 in H.
        match type of H with
        | context [call_api e system ?ms w1] =>
            destruct (call_api e system ms w1) as [[ex|resp'] w2] eqn:E2;
            apply call_api_frame in E2 as [Hs2 Ht2]
        end.
        -- injection H as _ <-. split; [congruence|].
           eexists. rewrite Ht2, Ht1. split; [reflexivity|]. repeat constructor.
        -- apply IH in H as [Hs3 (reqs & Ht3 & Hf)]. split; [congruence|].
           rewrite Ht3, Ht2, Ht1, <- app_assoc. eexists. split; [reflexivity|].
           constructor; [reflexivity|exact Hf].
    + injection H as _ <-. split; [reflexivity|]. exists []. rewrite app_nil_r. auto.
Qed.

Lemma turn_setup_spec (e : env) (user_message channel_id : string) (w : world) :
  exists sess ws,
    get_session channel_id (clock e) w = (inr sess, ws) /\
    SESSIONS ws !! channel_id = Some sess /\ last_activity sess = clock e /\
    match fst (get_all_markdown_files PROJECT_ROOT (get_allowed_dirs channel_id) (files w)) with
    | inl ex => fst (turn_setup PROJECT_ROOT e user_message channel_id w) = inl ex
    | inr ctx =>
        let msgs := messages sess ++
                    [{| role := "user";
                        msg_content := CText (context_message (messages sess) ctx user_message) |}] in
        exists w1,
          turn_setup PROJECT_ROOT e user_message channel_id w
            = (inr (get_allowed_dirs channel_id, ctx, msgs), w1) /\
          SESSIONS w1 = <[channel_id := {| messages := msgs; last_activity := last_activity sess |}]>
                          (SESSIONS ws) /\
          sent w1 = sent w /\ files w1 = files w
    end.
Proof.
  destruct (get_session_spec channel_id (clock e) w)
    as (sess & ws & Hrun & Hstored & Hlast & Hfiles & Hsent & _).
  exists sess, ws. split; [exact Hrun|]. split; [exact Hstored|]. split; [exact Hlast|].
  pose proof (ro_get_all_markdown_files PROJECT_ROOT (get_allowed_dirs channel_id) (files w)) as Hro.
  destruct (get_all_markdown_files PROJECT_ROOT (get_allowed_dirs channel_id) (files w))
    as [[ex|ctx] fs'] eqn:E; simpl in Hro; subst fs'; simpl;
    unfold turn_setup; unfold bind at 1; rewrite Hrun;
    unfold bind at 1, on_files; rewrite Hfiles, E; simpl; [reflexivity|].
  unfold session_append, session_messages, bind, get, put, ret. simpl.
  rewrite Hstored. simpl. rewrite lookup_insert_eq. simpl.
  eexists. split; [reflexivity|]. simpl. rewrite <- Hsent. auto.
Qed.

Lemma ask_claude_unfold (e : env) (fuel : nat) (user_message channel_id : string) (w : world) :
  ask_claude PROJECT_ROOT e fuel user_message channel_id w =
  match turn_setup PROJECT_ROOT e user_message channel_id w with
  | (inl ex, w1) => Some (inl ex, w1)
  | (inr (allowed_dirs, ctx, msgs), w1) =>
      match claude_exchange PROJECT_ROOT e fuel channel_id allowed_dirs ctx msgs w1 with
      | Some (inl ex, w2) => Some (inr (error_reply ex), w2)
      | r => r
      end
  end.
Proof.
  unfold ask_claude, bindL, liftP.
  destruct (turn_setup PROJECT_ROOT e user_message channel_id w) as [[ex|[[a ctx] msgs]] w1]; reflexivity.
Qed.

Lemma trim_messages_length (l : list message) :
  length (trim_messages l) = Nat.min MAX_MESSAGES (length l).
Proof.
  unfold trim_messages. destruct (Nat.ltb MAX_MESSAGES (length l)) eqn:E.
  - apply Nat.ltb_lt in E. rewrite length_drop. lia.
  - apply Nat.ltb_ge in E. lia.
Qed.

Lemma trim_messages_spec (l : list message) :
  length (trim_messages l) <= MAX_MESSAGES /\ exists dropped, l = dropped ++ trim_messages l.
Proof.
  unfold trim_messages. destruct (Nat.ltb MAX_MESSAGES (length l)) eqn:E.
  - apply Nat.ltb_lt in E. rewrite length_drop. split; [lia|].
    exists (take (length l - MAX_MESSAGES) l). symmetry. apply take_drop.
  - apply Nat.ltb_ge in E. split; [exact E|]. exists []. reflexivity.
Qed.

(** What the body of the [try] does to the session and to the requests. *)
Lemma claude_exchange_spec (e : env) (fuel : nat) (channel_id : string)
    (allowed_dirs : option (list string)) (ctx : string) (msgs : list message)
    (w1 w2 : world) (r : exn + string) (s1 : session) :
  SESSIONS w1 !! channel_id = Some s1 ->
  claude_exchange PROJECT_ROOT e fuel channel_id allowed_dirs ctx msgs w1 = Some (r, w2) ->
  (exists reqs,
     sent w2 = sent w1 ++ reqs /\
     head reqs = Some {| req_system := system_with_files ctx; req_messages := msgs |} /\
     Forall (fun q => req_system q = system_with_files ctx) reqs) /\
  match r with
  | inl _ => SESSIONS w2 = SESSIONS w1
  | inr text =>
      SESSIONS w2 =
        <[channel_id := {| messages := trim_messages
                                         (messages s1 ++ [{| role := "assistant";
                                                             msg_content := CText text |}]);
                           last_activity := last_activity s1 |}]> (SESSIONS w1)
  end.
Proof.
  intros Hs1 H. unfold claude_exchange, bindL at 1, liftP at 1 in H.
  destruct (call_api e (system_with_files ctx) msgs w1) as [[ex|resp] wa] eqn:Ea;
    apply call_api_frame in Ea as [Hsa Hta].
  - injection H as <- <-. split; [|exact Hsa].
    eexists. split; [exact Hta|]. split; [reflexivity|]. repeat constructor.
  - unfold bindL at 1 in H.
    destruct (tool_loop PROJECT_ROOT e fuel allowed_dirs (system_with_files ctx) resp msgs wa)
      as [[[ex|resp'] wb]|] eqn:Eb; [| |discriminate];
      apply tool_loop_frame in Eb as [Hsb (reqs & Htb & Hf)].
    + injection H as <- <-. split; [|congruence].
      eexists. rewrite Htb, Hta, <- app_assoc. split; [reflexivity|].
      split; [reflexivity|]. constructor; [reflexivity|exact Hf].
    + unfold bindL, liftP, session_append, session_trim, bind, get, put, ret, retL in H.
      simpl in H. rewrite Hsb, Hsa, Hs1 in H. simpl in H. rewrite lookup_insert_eq in H.
      simpl in H. injection H as <- <-. simpl. split.
      * eexists. rewrite Htb, Hta, <- app_assoc. split; [reflexivity|].
        split; [reflexivity|]. constructor; [reflexivity|exact Hf].
      * rewrite insert_insert_eq. reflexivity.
Qed.

Lemma turn_setup_inr (e : env) (user_message channel_id : string) (w w1 : world)
    (allowed_dirs : option (list string)) (ctx : string) (msgs : list message) :
  turn_setup PROJECT_ROOT e user_message channel_id w = (inr (allowed_dirs, ctx, msgs), w1) ->
  exists sess ws,
    get_session channel_id (clock e) w = (inr sess, ws) /\
    allowed_dirs = get_allowed_dirs channel_id /\
    fst (get_all_markdown_files PROJECT_ROOT (get_allowed_dirs channel_id) (files w)) = inr ctx /\
    msgs = messages sess ++
           [{| role := "user";
               msg_content := CText (context_message (messages sess) ctx user_message) |}] /\
    last_activity sess = clock e /\
    SESSIONS w1 = <[channel_id := {| messages := msgs; last_activity := clock e |}]> (SESSIONS ws) /\
    sent w1 = sent w.
Proof.
  intros H.
  destruct (turn_setup_spec e user_message channel_id w)
    as (sess & ws & Hrun & Hstored & Hlast & Hmatch).
  destruct (fst (get_all_markdown_files PROJECT_ROOT (get_allowed_dirs channel_id) (files w)))
    as [ex|ctx'] eqn:E.
  - rewrite H in Hmatch. discriminate.
  - destruct Hmatch as (w1' & Hts & Hs & Ht & _). rewrite H in Hts.
    injection Hts as Ha Hc Hm Hw. subst.
    exists sess, ws. rewrite Hs, Hlast. auto 8.
Qed.

(** C10: a turn whose [try] body completes stores exactly two new messages
    in the session, the user message built at the start of the turn and the
    assistant's text reply, then trims; the tool-use rounds extend only the
    local copy [msgs] sent to the model.  Apart from the expiry sweep done by
    [get_session], no other session changes. *)
Theorem ask_claude_persists_two_messages (e : env) (fuel : nat) (user_message channel_id : string)
    (w w1 w2 : world) (allowed_dirs : option (list string)) (ctx : string)
    (msgs : list message) (text : string) :
  turn_setup PROJECT_ROOT e user_message channel_id w = (inr (allowed_dirs, ctx, msgs), w1) ->
  claude_exchange PROJECT_ROOT e fuel channel_id allowed_dirs ctx msgs w1 = Some (inr text, w2) ->
  ask_claude PROJECT_ROOT e fuel user_message channel_id w = Some (inr text, w2) /\
  exists sess ws,
    get_session channel_id (clock e) w = (inr sess, ws) /\
    SESSIONS w2 =
      <[channel_id :=
          {| messages :=
               trim_messages
                 (messages sess ++
                  [{| role := "user";
                      msg_content := CText (context_message (messages sess) ctx user_message) |};
                   {| role := "assistant"; msg_content := CText text |}]);
             last_activity := clock e |}]> (SESSIONS ws).
Proof.
  intros Hts Hce.
  split.
  - rewrite ask_claude_unfold, Hts, Hce. reflexivity.
  - destruct (turn_setup_inr _ _ _ _ _ _ _ _ Hts)
      as (sess & ws & Hrun & _ & _ & Hmsgs & _ & Hs1 & _).
    assert (Hl : SESSIONS w1 !! channel_id =
                 Some {| messages := msgs; last_activity := clock e |}).
    { rewrite Hs1. apply lookup_insert_eq. }
    destruct (claude_exchange_spec _ _ _ _ _ _ _ _ _ _ Hl Hce) as [_ Hs2].
    exists sess, ws. split; [exact Hrun|].
    rewrite Hs2, Hs1, insert_insert_eq. simpl. rewrite Hmsgs, <- app_assoc. reflexivity.
Qed.

(** C3: the user message is stored before the [try] (bot.py line 307),
    but the trim to the last [MAX_MESSAGES] (40) messages runs only at the
    end of the [try] body (lines 360-362).  When the body completes, the
    session holds exactly [trim_messages (msgs ++ [reply])]: the last
    [min 40 (length msgs + 1)] messages of [msgs ++ [reply]], in order.  When
    the body raises, the reply is the error text and the session keeps
    [msgs], the prior messages plus the new user message, untrimmed, so
    failing turns grow it past the cap. *)
Theorem ask_claude_session_bound (e : env) (fuel : nat) (user_message channel_id : string)
    (w w1 w2 : world) (allowed_dirs : option (list string)) (ctx : string)
    (msgs : list message) (r : exn + string) :
  turn_setup PROJECT_ROOT e user_message channel_id w = (inr (allowed_dirs, ctx, msgs), w1) ->
  claude_exchange PROJECT_ROOT e fuel channel_id allowed_dirs ctx msgs w1 = Some (r, w2) ->
  (exists sess ws,
     get_session channel_id (clock e) w = (inr sess, ws) /\
     msgs = messages sess ++
            [{| role := "user";
                msg_content := CText (context_message (messages sess) ctx user_message) |}]) /\
  exists s2,
    SESSIONS w2 !! channel_id = Some s2 /\
    (forall text, r = inr text ->
       ask_claude PROJECT_ROOT e fuel user_message channel_id w = Some (inr text, w2) /\
       messages s2 = trim_messages (msgs ++ [{| role := "assistant"; msg_content := CText text |}]) /\
       length (messages s2) = Nat.min MAX_MESSAGES (S (length msgs)) /\
       exists dropped,
         msgs ++ [{| role := "assistant"; msg_content := CText text |}] = dropped ++ messages s2) /\
    (forall ex, r = inl ex ->
       ask_claude PROJECT_ROOT e fuel user_message channel_id w = Some (inr (error_reply ex), w2) /\
       messages s2 = msgs).
Proof.
  intros Hts Hce.
  destruct (turn_setup_inr _ _ _ _ _ _ _ _ Hts)
    as (sess & ws & Hrun & _ & _ & Hmsgs & _ & Hs1 & _).
  split; [exists sess, ws; auto|].
  assert (Hl : SESSIONS w1 !! channel_id =
               Some {| messages := msgs; last_activity := clock e |}).
  { rewrite Hs1. apply lookup_insert_eq. }
  destruct (claude_exchange_spec _ _ _ _ _ _ _ _ _ _ Hl Hce) as [_ Hs2].
  destruct r as [ex|text].
  - exists {| messages := msgs; last_activity := clock e |}.
    rewrite Hs2. split; [exact Hl|]. split; [intros ? [=]|].
    intros ex' [= <-]. split; [|reflexivity].
    rewrite ask_claude_unfold, Hts, Hce. reflexivity.
  - eexists. rewrite Hs2, lookup_insert_eq. split; [reflexivity|].
    split; [|intros ? [=]].
    intros text' [= <-]. split; [rewrite ask_claude_unfold, Hts, Hce; reflexivity|].
    simpl. split; [reflexivity|]. split; [|apply trim_messages_spec].
    rewrite trim_messages_length, length_app, Nat.add_1_r. reflexivity.
Qed.

(** C5: the only exception [ask_claude] lets escape is one raised while
    the documents are loaded, before the [try]; everything from the first
    model call on is caught and turned into [error_reply]. *)
Theorem ask_claude_uncaught_only_from_loading (e : env) (fuel : nat)
    (user_message channel_id : string) (w w' : world) (ex : exn) :
  ask_claude PROJECT_ROOT e fuel user_message channel_id w = Some (inl ex, w') ->
  fst (get_all_markdown_files PROJECT_ROOT (get_allowed_dirs channel_id) (files w)) = inl ex.
Proof.
  rewrite ask_claude_unfold.
  destruct (turn_setup_spec e user_message channel_id w) as (sess & ws & _ & _ & _ & Hmatch).
  destruct (fst (get_all_markdown_files PROJECT_ROOT (get_allowed_dirs channel_id) (files w)))
    as [ex0|ctx] eqn:E.
  - destruct (turn_setup PROJECT_ROOT e user_message channel_id w) as [r1 w1].
    simpl in Hmatch. subst r1. intros H. injection H as -> _. reflexivity.
  - destruct Hmatch as (w1 & Hts & _). rewrite Hts.
    destruct (claude_exchange PROJECT_ROOT e fuel channel_id _ ctx _ w1) as [[[ex1|t] w2]|];
      discriminate.
Qed.

(** C8: the user message of the turn carries the whole rendering of the
    documents when the session has no prior messages, and a fixed
    placeholder otherwise; every request of the turn (the first one and
    those of the tool rounds) carries the system prompt with the rendering
    made at the start of the turn, and the first one carries the session's
    messages with the new user message. *)
Theorem ask_claude_context_and_system (e : env) (fuel : nat) (user_message channel_id : string)
    (w ws w' : world) (sess : session) (ctx : string) (r : exn + string) :
  get_session channel_id (clock e) w = (inr sess, ws) ->
  fst (get_all_markdown_files PROJECT_ROOT (get_allowed_dirs channel_id) (files w)) = inr ctx ->
  ask_claude PROJECT_ROOT e fuel user_message channel_id w = Some (r, w') ->
  (exists reqs,
     sent w' = sent w ++ reqs /\
     head reqs =
       Some {| req_system := system_with_files ctx;
               req_messages :=
                 messages sess ++
                 [{| role := "user";
                     msg_content := CText (context_message (messages sess) ctx user_message) |}] |} /\
     Forall (fun q => req_system q = system_with_files ctx) reqs) /\
  (messages sess = [] ->
     context_message (messages sess) ctx user_message =
     "Here are the current project files:" +:+ NL2 +:+ ctx +:+ NL2 +:+
     "---" +:+ NL2 +:+ "User request: " +:+ user_message) /\
  (messages sess <> [] ->
     context_message (messages sess) ctx user_message =
     "(Project files still available from earlier in conversation)" +:+ NL2 +:+
     "User request: " +:+ user_message) /\
  system_with_files ctx = SYSTEM_PROMPT +:+ NL2 +:+ "Current project files:" +:+ NL +:+ ctx.
Proof.
  intros Hrun Hload Hask.
  destruct (turn_setup_spec e user_message channel_id w)
    as (sess0 & ws0 & Hrun0 & _ & _ & Hmatch).
  rewrite Hrun in Hrun0. injection Hrun0 as <- <-.
  rewrite Hload in Hmatch. destruct Hmatch as (w1 & Hts & Hs1 & Ht1 & _).
  split; [|split; [|split]].
  - rewrite ask_claude_unfold, Hts in Hask.
    assert (Hl : exists s1, SESSIONS w1 !! channel_id = Some s1).
    { eexists. rewrite Hs1. apply lookup_insert_eq. }
    destruct Hl as [s1 Hl].
    destruct (claude_exchange PROJECT_ROOT e fuel channel_id _ ctx _ w1)
      as [[[ex|t] w2]|] eqn:Hce; [| |discriminate].
    + injection Hask as _ <-.
      destruct (claude_exchange_spec _ _ _ _ _ _ _ _ _ _ Hl Hce) as [(reqs & Ht & Hh & Hf) _].
      exists reqs. rewrite Ht, Ht1. auto.
    + injection Hask as _ <-.
      destruct (claude_exchange_spec _ _ _ _ _ _ _ _ _ _ Hl Hce) as [(reqs & Ht & Hh & Hf) _].
      exists reqs. rewrite Ht, Ht1. auto.
  - intros ->. reflexivity.
  - destruct (messages sess); [congruence|]. reflexivity.
  - reflexivity.
Qed.

End TurnProofs.

(** ** Git history *)

Section GitProofs.

(** C9 (amended): [get_recent_updates] always returns a string.  A failing
    [git log] gives its error text; an empty log gives the no-commits
    message with the day count; an exception in the body (a bad [days], a
    date out of range, a failing [subprocess.run]) gives the generic error
    text; otherwise the summary holds the stripped output of
    [git rev-list --count] if it succeeded and "unknown" if it did not, the
    number of distinct non-empty lines of the file listing (whose exit
    status is not checked), and the raw log. *)
Theorem get_recent_updates_cases (git : git_oracle) (today : Z) (days : jvalue) :
  (forall ex, get_recent_updates_body git today days = inl ex ->
     get_recent_updates git today days = "Error getting git history: " +:+ str_exn ex) /\
  (forall since log_result,
     since_date today days = inr since ->
     git ["git"; "log"; "--since=" +:+ since; "--pretty=format:%h|%s|%ad";
          "--date=short"; "--name-only"] = inr log_result ->
     (returncode log_result <> 0%Z ->
        get_recent_updates git today days = "Error running git log: " +:+ stderr log_result) /\
     (returncode log_result = 0%Z -> strip (stdout log_result) = "" ->
        get_recent_updates git today days =
        "No commits found in the last " +:+ str_jvalue days +:+ " days.") /\
     (forall stat_result count_result files_result,
        returncode log_result = 0%Z -> strip (stdout log_result) <> "" ->
        git ["git"; "log"; "--since=" +:+ since; "--pretty=format:"; "--shortstat"]
          = inr stat_result ->
        git ["git"; "rev-list"; "--count"; "--since=" +:+ since; "HEAD"] = inr count_result ->
        git ["git"; "log"; "--since=" +:+ since; "--pretty=format:"; "--name-only"]
          = inr files_result ->
        get_recent_updates git today days =
        "Git history for the last " +:+ str_jvalue days +:+ " days:" +:+ NL2 +:+
        "Total commits: " +:+
          (if (returncode count_result =? 0)%Z then strip (stdout count_result) else "unknown")
          +:+ NL +:+
        "Files modified: " +:+
          str_Z (Z.of_nat (count_unique_lines (strip (stdout files_result)))) +:+ NL2 +:+
        "Commits:" +:+ NL +:+ stdout log_result)).
Proof.
  split.
  - intros ex H. unfold get_recent_updates. rewrite H. reflexivity.
  - intros since log_result Hs Hlog.
    unfold get_recent_updates, get_recent_updates_body. rewrite Hs, Hlog.
    split; [|split].
    + intros Hrc. apply Z.eqb_neq in Hrc. rewrite Hrc. reflexivity.
    + intros Hrc Hempty. apply Z.eqb_eq in Hrc. rewrite Hrc, Hempty. reflexivity.
    + intros stat_result count_result files_result Hrc Hne Hstat Hcount Hfiles.
      apply Z.eqb_eq in Hrc. apply String.eqb_neq in Hne.
      rewrite Hrc, Hne, Hstat, Hcount, Hfiles. reflexivity.
Qed.

End GitProofs.

(* ================================================================== *)
(** * Concrete runs *)

Section Runs.

Lemma pair_by_fst {A B} (p : A * B) (a : A) : fst p = a -> p = (a, snd p).
Proof. destruct p. simpl. intros ->. reflexivity. Qed.

Lemma some_pair_by_fst {A B} (o : option (A * B)) (a : A) (d : B) :
  option_map fst o = Some a -> o = Some (a, snd_or d o).
Proof. destruct o as [[x y]|]; simpl; congruence. Qed.

(** C3, counterexample: a session already at 40 messages, and the model is
    down.  The turn answers with the error text, and the session is left
    with 41 messages: the user message was stored before the [try], and the
    trim belongs to the part of the body that did not run. *)
Lemma ask_claude_failed_turn_exceeds_cap :
  option_map (fun '(r, w') => (r, option_map (fun s => length (messages s)) (SESSIONS w' !! "C1")))
    (ask_claude DEMO_ROOT down_env 3 "Any news?" "C1" full_world)
  = Some (inr (error_reply (APIError "Overloaded")), Some 41).
Proof. vm_compute. reflexivity. Qed.

(** C5, counterexample: when [project_beta] cannot be inspected,
    [proj_path.exists()] raises while the documents are loaded, before the
    [try], and the exception leaves [ask_claude]. *)
Lemma ask_claude_loading_error_escapes :
  option_map fst (ask_claude DEMO_ROOT demo_env 3 "Any news?" "C1" broken_world)
  = Some (inl (permission_denied ["srv"; "kb"; "project_beta"])).
Proof. vm_compute. reflexivity. Qed.

(** C6, counterexample: a root-level [CLAUDE.md] is a document, yet with
    full access nothing is read and the sentinel is returned. *)
Lemma get_all_markdown_files_skips_claude_md :
  claude_only_files !! (DEMO_ROOT ++ ["CLAUDE.md"]) = Some (File "Bot instructions") /\
  fst (get_all_markdown_files DEMO_ROOT None claude_only_files) = inr NO_FILES.
Proof. split; vm_compute; reflexivity. Qed.

(** C9, counterexample: the log has a commit, but [git rev-list --count]
    fails, and the summary reports the commit count as "unknown". *)
Lemma get_recent_updates_unknown_count :
  get_recent_updates git_count_fails DEMO_TODAY (JInt 7) =
  "Git history for the last 7 days:" +:+ NL2 +:+
  "Total commits: unknown" +:+ NL +:+
  "Files modified: 1" +:+ NL2 +:+
  "Commits:" +:+ NL +:+ "a1b2c3d|Update notes|2026-10-15" +:+ NL +:+ "README.md".
Proof. vm_compute. reflexivity. Qed.

(** C1 at a concrete input: an edit of [project_alpha/todo.md] whose text
    does not occur. *)
Lemma edit_file_error_order_witness :
  check_access "project_alpha/todo.md" (Some ["project_alpha"]) = None /\
  path_exists DEMO_ROOT (root_join DEMO_ROOT "project_alpha/todo.md") demo_files
    = (inr true, demo_files) /\
  path_suffix (root_join DEMO_ROOT "project_alpha/todo.md") = ".md" /\
  read_text DEMO_ROOT (root_join DEMO_ROOT "project_alpha/todo.md") demo_files
    = (inr "TODO: ship A..A", demo_files) /\
  str_contains "XYZ" "TODO: ship A..A" = false /\
  edit_file DEMO_ROOT "project_alpha/todo.md" "XYZ" "abc" (Some ["project_alpha"]) demo_files
    = (inr (text_not_found_error "project_alpha/todo.md"), demo_files).
Proof.
  do 5 (split; [reflexivity|]).
  pose proof (edit_file_error_order DEMO_ROOT "project_alpha/todo.md" "XYZ" "abc"
                (Some ["project_alpha"]) demo_files) as T.
  cbv zeta in T. destruct T as (_ & _ & _ & T).
  apply (T ltac:(reflexivity) ltac:(reflexivity)
           ltac:(reflexivity) "TODO: ship A..A");
    reflexivity.
Defined.

(** C2 at a concrete input: content ["TODO: ship A..A"], find ["A"]. *)
Lemma edit_file_replaces_first_witness :
  check_access "project_alpha/todo.md" None = None /\
  resolve DEMO_ROOT demo_files (root_join DEMO_ROOT "project_alpha/todo.md")
    = inr (Some ["srv"; "kb"; "project_alpha"; "todo.md"]) /\
  entry_at DEMO_ROOT demo_files ["srv"; "kb"; "project_alpha"; "todo.md"]
    = Some (File "TODO: ship A..A") /\
  path_suffix (root_join DEMO_ROOT "project_alpha/todo.md") = ".md" /\
  str_contains "A" (universal_newlines "TODO: ship A..A") = true /\
  (exists pre post,
    universal_newlines "TODO: ship A..A" = pre +:+ "A" +:+ post /\
    (forall a b, universal_newlines "TODO: ship A..A" = a +:+ "A" +:+ b ->
                 String.length pre <= String.length a) /\
    edit_file DEMO_ROOT "project_alpha/todo.md" "A" "B" None demo_files =
      (inr (updated_message "project_alpha/todo.md"),
       <[["srv"; "kb"; "project_alpha"; "todo.md"] := File (pre +:+ "B" +:+ post)]> demo_files)) /\
  replace_first "A" "B" "A..A" = "B..A".
Proof.
  do 5 (split; [reflexivity|]).
  refine (edit_file_replaces_first DEMO_ROOT "project_alpha/todo.md" "A" "B" None demo_files
            ["srv"; "kb"; "project_alpha"; "todo.md"] "TODO: ship A..A" _ _ _ _ _);
    reflexivity.
Defined.

(** C7 at a concrete input: the root [README.md] of [demo_files] is
    rewritten under the scope [["project_alpha"]]. *)
Lemma edit_file_dotdot_escapes_witness :
  entry_at DEMO_ROOT demo_files (DEMO_ROOT ++ ["project_alpha"]) = Some Dir /\
  demo_files !! (DEMO_ROOT ++ ["README.md"]) = Some (File "Team notes") /\
  str_contains "Team" (universal_newlines "Team notes") = true /\
  file_dir_of "project_alpha/../README.md" = Some "project_alpha" /\
  check_access "project_alpha/../README.md" (Some ["project_alpha"]) = None /\
  resolve DEMO_ROOT demo_files (root_join DEMO_ROOT "project_alpha/../README.md")
    = inr (Some (DEMO_ROOT ++ ["README.md"])) /\
  edit_file DEMO_ROOT "project_alpha/../README.md" "Team" "Hacked" (Some ["project_alpha"])
      demo_files =
    (inr (updated_message "project_alpha/../README.md"),
     <[DEMO_ROOT ++ ["README.md"] :=
         File (replace_first "Team" "Hacked" (universal_newlines "Team notes"))]> demo_files).
Proof.
  do 3 (split; [reflexivity|]).
  refine (edit_file_dotdot_escapes DEMO_ROOT demo_files "Team notes" "Team" "Hacked" _ _ _);
    reflexivity.
Defined.

(** C4 at a concrete input: [full_session] looked up exactly 30 minutes
    after its last activity. *)
Lemma get_session_expires_witness :
  SESSIONS full_world !! "C1" = Some full_session /\
  let '(r, w') := get_session "C1" (DEMO_NOW + SESSION_TIMEOUT) full_world in
  ((DEMO_NOW + SESSION_TIMEOUT - last_activity full_session > SESSION_TIMEOUT)%Z ->
     r = inr (fresh_session (DEMO_NOW + SESSION_TIMEOUT)) /\
     messages (fresh_session (DEMO_NOW + SESSION_TIMEOUT)) = [] /\
     SESSIONS w' !! "C1" = Some (fresh_session (DEMO_NOW + SESSION_TIMEOUT))) /\
  ((DEMO_NOW + SESSION_TIMEOUT - last_activity full_session <= SESSION_TIMEOUT)%Z ->
     r = inr {| messages := messages full_session; last_activity := DEMO_NOW + SESSION_TIMEOUT |} /\
     SESSIONS w' !! "C1" =
       Some {| messages := messages full_session; last_activity := DEMO_NOW + SESSION_TIMEOUT |}).
Proof.
  split; [reflexivity|].
  exact (get_session_expires "C1" (DEMO_NOW + SESSION_TIMEOUT) full_world full_session
           ltac:(reflexivity)).
Defined.

(** C6 at a concrete input: the documents of [demo_files] with full
    access. *)
Lemma get_all_markdown_files_scope_witness :
  exists items,
    fst (files_to_read DEMO_ROOT None demo_files) = inr items /\
    ((None : option (list string)) = None ->
       (forall n e, demo_files !! (DEMO_ROOT ++ [n]) = Some e -> endswith n ".md" = true ->
          n <> "CLAUDE.md" -> exists it, it ∈ items /\ item_path it = DEMO_ROOT ++ [n]) /\
       (forall d name rel n e, (d, name) ∈ PROJECTS ->
          entry_at DEMO_ROOT demo_files (DEMO_ROOT ++ [d]) = Some Dir ->
          demo_files !! (DEMO_ROOT ++ d :: rel) = Some e -> last rel = Some n ->
          endswith n ".md" = true ->
          exists it, it ∈ items /\ item_path it = DEMO_ROOT ++ d :: rel) /\
       (forall it, it ∈ items -> item_path it <> DEMO_ROOT ++ ["CLAUDE.md"])) /\
    (forall dirs, (None : option (list string)) = Some dirs -> forall it, it ∈ items ->
       exists d name rel, (d, name) ∈ PROJECTS /\ in_list (Some d) dirs = true /\
         item_path it = DEMO_ROOT ++ d :: rel /\ rel <> []) /\
    (fst (get_all_markdown_files DEMO_ROOT None demo_files) = inr NO_FILES <-> items = []).
Proof.
  let r := eval vm_compute in (fst (files_to_read DEMO_ROOT None demo_files)) in
  lazymatch r with
  | inr ?items =>
      let H := fresh "H" in
      assert (H : fst (files_to_read DEMO_ROOT None demo_files) = inr items)
        by (vm_compute; reflexivity);
      exists items; exact (conj H (get_all_markdown_files_scope DEMO_ROOT demo_files None items H))
  end.
Defined.

(** C10 at a concrete input: a first turn in which the model edits
    [project_alpha/todo.md] once and then answers. *)
Lemma ask_claude_persists_two_messages_witness :
  exists allowed_dirs ctx msgs w1 text w2,
    turn_setup DEMO_ROOT demo_env "Mark the TODO done" "C1" fresh_world
      = (inr (allowed_dirs, ctx, msgs), w1) /\
    claude_exchange DEMO_ROOT demo_env 3 "C1" allowed_dirs ctx msgs w1 = Some (inr text, w2) /\
    (ask_claude DEMO_ROOT demo_env 3 "Mark the TODO done" "C1" fresh_world = Some (inr text, w2) /\
     exists sess ws,
       get_session "C1" (clock demo_env) fresh_world = (inr sess, ws) /\
       SESSIONS w2 =
         <["C1" :=
             {| messages :=
                  trim_messages
                    (messages sess ++
                     [{| role := "user";
                         msg_content :=
                           CText (context_message (messages sess) ctx "Mark the TODO done") |};
                      {| role := "assistant"; msg_content := CText text |}]);
                last_activity := clock demo_env |}]> (SESSIONS ws)).
Proof.
  pose (w1 := snd (turn_setup DEMO_ROOT demo_env "Mark the TODO done" "C1" fresh_world)).
  let ts := eval vm_compute in
    (fst (turn_setup DEMO_ROOT demo_env "Mark the TODO done" "C1" fresh_world)) in
  lazymatch ts with
  | inr (?a, ?c, ?m) =>
      let ce := eval vm_compute in
        (option_map fst (claude_exchange DEMO_ROOT demo_env 3 "C1" a c m w1)) in
      lazymatch ce with
      | Some (inr ?t) =>
          pose (w2 := snd_or fresh_world (claude_exchange DEMO_ROOT demo_env 3 "C1" a c m w1));
          let H1 := fresh "H1" in
          let H2 := fresh "H2" in
          assert (H1 : turn_setup DEMO_ROOT demo_env "Mark the TODO done" "C1" fresh_world
                         = (inr (a, c, m), w1)) by (apply pair_by_fst; vm_compute; reflexivity);
          assert (H2 : claude_exchange DEMO_ROOT demo_env 3 "C1" a c m w1 = Some (inr t, w2))
            by (apply some_pair_by_fst; vm_compute; reflexivity);
          exists a, c, m, w1, t, w2;
          exact (conj H1 (conj H2 (ask_claude_persists_two_messages DEMO_ROOT demo_env 3
                   "Mark the TODO done" "C1" fresh_world w1 w2 a c m t H1 H2)))
      end
  end.
Defined.

(** C3 at a concrete input: the failing turn on [full_world]. *)
Lemma ask_claude_session_bound_witness :
  exists allowed_dirs ctx msgs w1 r w2,
    turn_setup DEMO_ROOT down_env "Any news?" "C1" full_world
      = (inr (allowed_dirs, ctx, msgs), w1) /\
    claude_exchange DEMO_ROOT down_env 3 "C1" allowed_dirs ctx msgs w1 = Some (r, w2) /\
    ((exists sess ws,
        get_session "C1" (clock down_env) full_world = (inr sess, ws) /\
        msgs = messages sess ++
               [{| role := "user";
                   msg_content := CText (context_message (messages sess) ctx "Any news?") |}]) /\
     exists s2,
       SESSIONS w2 !! "C1" = Some s2 /\
       (forall text, r = inr text ->
          ask_claude DEMO_ROOT down_env 3 "Any news?" "C1" full_world = Some (inr text, w2) /\
          messages s2 = trim_messages (msgs ++ [{| role := "assistant"; msg_content := CText text |}]) /\
          length (messages s2) = Nat.min MAX_MESSAGES (S (length msgs)) /\
          exists dropped,
            msgs ++ [{| role := "assistant"; msg_content := CText text |}] = dropped ++ messages s2) /\
       (forall ex, r = inl ex ->
          ask_claude DEMO_ROOT down_env 3 "Any news?" "C1" full_world
            = Some (inr (error_reply ex), w2) /\
          messages s2 = msgs)).
Proof.
  pose (w1 := snd (turn_setup DEMO_ROOT down_env "Any news?" "C1" full_world)).
  let ts := eval vm_compute in (fst (turn_setup DEMO_ROOT down_env "Any news?" "C1" full_world)) in
  lazymatch ts with
  | inr (?a, ?c, ?m) =>
      let ce := eval vm_compute in
        (option_map fst (claude_exchange DEMO_ROOT down_env 3 "C1" a c m w1)) in
      lazymatch ce with
      | Some ?r =>
          pose (w2 := snd_or full_world (claude_exchange DEMO_ROOT down_env 3 "C1" a c m w1));
          let H1 := fresh "H1" in
          let H2 := fresh "H2" in
          assert (H1 : turn_setup DEMO_ROOT down_env "Any news?" "C1" full_world
                         = (inr (a, c, m), w1)) by (apply pair_by_fst; vm_compute; reflexivity);
          assert (H2 : claude_exchange DEMO_ROOT down_env 3 "C1" a c m w1 = Some (r, w2))
            by (apply some_pair_by_fst; vm_compute; reflexivity);
          exists a, c, m, w1, r, w2;
          exact (conj H1 (conj H2 (ask_claude_session_bound DEMO_ROOT down_env 3
                   "Any news?" "C1" full_world w1 w2 a c m r H1 H2)))
      end
  end.
Defined.

(** C5 at a concrete input: the run on [broken_world]. *)
Lemma ask_claude_uncaught_only_from_loading_witness :
  exists ex w',
    ask_claude DEMO_ROOT demo_env 3 "Any news?" "C1" broken_world = Some (inl ex, w') /\
    fst (get_all_markdown_files DEMO_ROOT (get_allowed_dirs "C1") (files broken_world)) = inl ex.
Proof.
  pose (w' := snd_or broken_world (ask_claude DEMO_ROOT demo_env 3 "Any news?" "C1" broken_world)).
  let r := eval vm_compute in
    (option_map fst (ask_claude DEMO_ROOT demo_env 3 "Any news?" "C1" broken_world)) in
  lazymatch r with
  | Some (inl ?ex) =>
      let H := fresh "H" in
      assert (H : ask_claude DEMO_ROOT demo_env 3 "Any news?" "C1" broken_world
                    = Some (inl ex, w')) by (apply some_pair_by_fst; vm_compute; reflexivity);
      exists ex, w';
      exact (conj H (ask_claude_uncaught_only_from_loading DEMO_ROOT demo_env 3 "Any news?" "C1"
                       broken_world w' ex H))
  end.
Defined.

(** C8 at a concrete input: the first turn on [fresh_world]. *)
Lemma ask_claude_context_and_system_witness :
  exists sess ws ctx r w',
    get_session "C1" (clock demo_env) fresh_world = (inr sess, ws) /\
    fst (get_all_markdown_files DEMO_ROOT (get_allowed_dirs "C1") (files fresh_world)) = inr ctx /\
    ask_claude DEMO_ROOT demo_env 3 "Mark the TODO done" "C1" fresh_world = Some (r, w') /\
    ((exists reqs,
       sent w' = sent fresh_world ++ reqs /\
       head reqs =
         Some {| req_system := system_with_files ctx;
                 req_messages :=
                   messages sess ++
                   [{| role := "user";
                       msg_content :=
                         CText (context_message (messages sess) ctx "Mark the TODO done") |}] |} /\
       Forall (fun q => req_system q = system_with_files ctx) reqs) /\
     (messages sess = [] ->
        context_message (messages sess) ctx "Mark the TODO done" =
        "Here are the current project files:" +:+ NL2 +:+ ctx +:+ NL2 +:+
        "---" +:+ NL2 +:+ "User request: " +:+ "Mark the TODO done") /\
     (messages sess <> [] ->
        context_message (messages sess) ctx "Mark the TODO done" =
        "(Project files still available from earlier in conversation)" +:+ NL2 +:+
        "User request: " +:+ "Mark the TODO done") /\
     system_with_files ctx = SYSTEM_PROMPT +:+ NL2 +:+ "Current project files:" +:+ NL +:+ ctx).
Proof.
  pose (ws := snd (get_session "C1" (clock demo_env) fresh_world)).
  pose (w' := snd_or fresh_world
                (ask_claude DEMO_ROOT demo_env 3 "Mark the TODO done" "C1" fresh_world)).
  let g := eval vm_compute in (fst (get_session "C1" (clock demo_env) fresh_world)) in
  let l := eval vm_compute in
    (fst (get_all_markdown_files DEMO_ROOT (get_allowed_dirs "C1") (files fresh_world))) in
  let a := eval vm_compute in
    (option_map fst (ask_claude DEMO_ROOT demo_env 3 "Mark the TODO done" "C1" fresh_world)) in
  lazymatch g with
  | inr ?sess =>
  lazymatch l with
  | inr ?ctx =>
  lazymatch a with
  | Some ?r =>
      let H1 := fresh "H1" in
      let H2 := fresh "H2" in
      let H3 := fresh "H3" in
      assert (H1 : get_session "C1" (clock demo_env) fresh_world = (inr sess, ws))
        by (apply pair_by_fst; vm_compute; reflexivity);
      assert (H2 : fst (get_all_markdown_files DEMO_ROOT (get_allowed_dirs "C1")
                          (files fresh_world)) = inr ctx)
        by (vm_compute; reflexivity);
      assert (H3 : ask_claude DEMO_ROOT demo_env 3 "Mark the TODO done" "C1" fresh_world
                     = Some (r, w')) by (apply some_pair_by_fst; vm_compute; reflexivity);
      exists sess, ws, ctx, r, w';
      exact (conj H1 (conj H2 (conj H3 (ask_claude_context_and_system DEMO_ROOT demo_env 3
               "Mark the TODO done" "C1" fresh_world ws w' sess ctx r H1 H2 H3))))
  end end end.
Defined.

(** C9 at a concrete input: the summary for [git_count_fails]. *)
Lemma get_recent_updates_cases_witness :
  since_date DEMO_TODAY (JInt 7) = inr "2026-10-10" /\
  git_count_fails ["git"; "log"; "--since=" +:+ "2026-10-10"; "--pretty=format:%h|%s|%ad";
                   "--date=short"; "--name-only"]
    = inr {| returncode := 0; stdout := "a1b2c3d|Update notes|2026-10-15" +:+ NL +:+ "README.md";
             stderr := "" |} /\
  get_recent_updates git_count_fails DEMO_TODAY (JInt 7) =
  "Git history for the last " +:+ str_jvalue (JInt 7) +:+ " days:" +:+ NL2 +:+
  "Total commits: " +:+ "unknown" +:+ NL +:+
  "Files modified: " +:+ str_Z (Z.of_nat (count_unique_lines (strip (NL +:+ "README.md")))) +:+ NL2 +:+
  "Commits:" +:+ NL +:+ ("a1b2c3d|Update notes|2026-10-15" +:+ NL +:+ "README.md").
Proof.
  assert (Hs : since_date DEMO_TODAY (JInt 7) = inr "2026-10-10") by (vm_compute; reflexivity).
  assert (Hl : git_count_fails ["git"; "log"; "--since=" +:+ "2026-10-10";
                                "--pretty=format:%h|%s|%ad"; "--date=short"; "--name-only"]
               = inr {| returncode := 0;
                        stdout := "a1b2c3d|Update notes|2026-10-15" +:+ NL +:+ "README.md";
                        stderr := "" |}) by (vm_compute; reflexivity).
  split; [exact Hs|]. split; [exact Hl|].
  destruct (get_recent_updates_cases git_count_fails DEMO_TODAY (JInt 7)) as [_ T].
  destruct (T _ _ Hs Hl) as (_ & _ & T3).
  exact (T3 {| returncode := 0; stdout := " 1 file changed"; stderr := "" |}
            {| returncode := 128; stdout := ""; stderr := "fatal: ambiguous argument 'HEAD'" |}
            {| returncode := 0; stdout := NL +:+ "README.md"; stderr := "" |}
            ltac:(vm_compute; reflexivity) ltac:(vm_compute; discriminate)
            ltac:(vm_compute; reflexivity) ltac:(vm_compute; reflexivity)
            ltac:(vm_compute; reflexivity)).
Defined.

End Runs.

(* ================================================================== *)
(** * Further properties of the code *)

(** ** The Slack handlers *)

Section HandlerProofs.

Variable PROJECT_ROOT : list string.

Lemma answer_spec (e : env) (fuel : nat) (ts_of : list slack_action -> string)
    (user_message channel : string) (w w' : world) (acts : list slack_action) (r : exn + string) :
  ask_claude PROJECT_ROOT e fuel user_message channel w = Some (r, w') ->
  answer PROJECT_ROOT e fuel ts_of user_message channel (w, acts) =
  match r with
  | inr reply =>
      Some (inr tt, (w', acts ++ [PostMessage channel THINKING;
                                  DeleteMessage channel (ts_of acts); Say reply]))
  | inl ex => Some (inl ex, (w', acts ++ [PostMessage channel THINKING]))
  end.
Proof.
  intros H. unfold answer, bindL, chat_postMessage, on_world, slack_do. simpl.
  rewrite H. destruct r as [ex|reply]; simpl; [reflexivity|].
  rewrite <- !app_assoc. reflexivity.
Qed.

Lemma ask_claude_load_error (e : env) (fuel : nat) (user_message channel_id : string)
    (w : world) (ex : exn) :
  fst (get_all_markdown_files PROJECT_ROOT (get_allowed_dirs channel_id) (files w)) = inl ex ->
  exists w', ask_claude PROJECT_ROOT e fuel user_message channel_id w = Some (inl ex, w').
Proof.
  intros H. destruct (turn_setup_spec PROJECT_ROOT e user_message channel_id w)
    as (sess & ws & _ & _ & _ & Hmatch).
  rewrite H in Hmatch. rewrite ask_claude_unfold.
  destruct (turn_setup PROJECT_ROOT e user_message channel_id w) as [r1 w1].
  simpl in Hmatch. subst r1. eauto.
Qed.

Lemma py_lstrip_spaces (s : string) :
  (forall i c, String.get i s = Some c -> py_isspace c = true) -> py_lstrip s = "".
Proof.
  induction s as [|c s IH]; intros H; simpl; [reflexivity|].
  rewrite (H 0 c eq_refl). apply IH. intros i d Hd. exact (H (S i) d Hd).
Qed.

Lemma after_gt_app (u rest : string) :
  after_gt u = None -> after_gt (u +:+ ">" +:+ rest) = Some rest.
Proof.
  induction u as [|c u IH]; simpl; [reflexivity|].
  destruct (Ascii.eqb c ">"); [discriminate|exact IH].
Qed.

(** The request of a mention ["<@U...> text"] is the stripped text after
    the user tag; when that text is only white space the bot greets and
    nothing reaches the model or the session store. *)
Theorem handle_mention_request_text (e : env) (fuel : nat) (ts_of : list slack_action -> string)
    (uid rest ch : string) (bot_id channel_type : option string) (w : world)
    (acts : list slack_action) :
  after_gt uid = None ->
  let ev := {| ev_text := Some ("<@" +:+ uid +:+ ">" +:+ rest); ev_channel := ch;
               ev_bot_id := bot_id; ev_channel_type := channel_type |} in
  py_strip (split_gt_last (default "" (ev_text ev))) = py_strip rest /\
  ((forall i c, String.get i rest = Some c -> py_isspace c = true) ->
     handle_mention PROJECT_ROOT e fuel ts_of ev (w, acts) =
     Some (inr tt, (w, acts ++ [Say GREETING]))).
Proof.
  intros Huid. cbv zeta.
  assert (Hs : split_gt_last ("<@" +:+ uid +:+ ">" +:+ rest) = rest).
  { unfold split_gt_last.
    change (after_gt ("<@" +:+ uid +:+ ">" +:+ rest)) with (after_gt (uid +:+ ">" +:+ rest)).
    rewrite after_gt_app by exact Huid. reflexivity. }
  cbn [default ev_text id]. rewrite Hs. split; [reflexivity|].
  intros Hsp. unfold handle_mention. cbn [default ev_text id]. rewrite Hs.
  unfold py_strip. rewrite (py_lstrip_spaces rest Hsp). reflexivity.
Qed.

(** When the project files cannot be loaded, a non-empty mention leaves
    "_Thinking..._" in the channel, posts no reply, and the exception
    leaves the handler. *)
Theorem handle_mention_load_error (e : env) (fuel : nat) (ts_of : list slack_action -> string)
    (ev : slack_event) (w : world) (acts : list slack_action) (ex : exn) :
  py_strip (split_gt_last (default "" (ev_text ev))) <> "" ->
  fst (get_all_markdown_files PROJECT_ROOT (get_allowed_dirs (ev_channel ev)) (files w)) = inl ex ->
  exists w', handle_mention PROJECT_ROOT e fuel ts_of ev (w, acts) =
             Some (inl ex, (w', acts ++ [PostMessage (ev_channel ev) THINKING])).
Proof.
  intros Hne Hload.
  destruct (ask_claude_load_error e fuel (py_strip (split_gt_last (default "" (ev_text ev))))
              (ev_channel ev) w ex Hload) as [w' Hask].
  exists w'. unfold handle_mention. apply String.eqb_neq in Hne. rewrite Hne. simpl.
  exact (answer_spec _ _ _ _ _ _ _ _ _ Hask).
Qed.

End HandlerProofs.

(** ** Editing files *)

Section EditFileExtras.

Variable PROJECT_ROOT : list string.

Lemma entry_at_file (fs : fsys) (p : list string) (c : string) :
  entry_at PROJECT_ROOT fs p = Some (File c) -> fs !! p = Some (File c) /\ is_prefix_of p PROJECT_ROOT = false.
Proof. unfold entry_at. destruct (is_prefix_of p PROJECT_ROOT); [discriminate|auto]. Qed.

Lemma read_text_inr (fs fs' : fsys) (pp : ppath) (s : string) :
  read_text PROJECT_ROOT pp fs = (inr s, fs') ->
  fs' = fs /\ exists p c, resolve PROJECT_ROOT fs pp = inr (Some p) /\
    entry_at PROJECT_ROOT fs p = Some (File c) /\ s = universal_newlines c.
Proof.
  unfold read_text, bind, get.
  destruct (resolve PROJECT_ROOT fs pp) as [ex|[p|]]; try discriminate.
  destruct (entry_at PROJECT_ROOT fs p) as [[c| |]|] eqn:E; try discriminate.
  unfold ret. intros H; injection H as <- <-. eauto 8.
Qed.

Lemma edit_file_frame (file_path find_text replace_text : string)
    (allowed_dirs : option (list string)) (fs fs' : fsys) (r : exn + string) :
  edit_file PROJECT_ROOT file_path find_text replace_text allowed_dirs fs = (r, fs') ->
  fs' = fs \/
  exists p c,
    check_access file_path allowed_dirs = None /\
    resolve PROJECT_ROOT fs (root_join PROJECT_ROOT file_path) = inr (Some p) /\
    fs !! p = Some (File c) /\
    path_suffix (root_join PROJECT_ROOT file_path) = ".md" /\
    str_contains find_text (universal_newlines c) = true /\
    r = inr (updated_message file_path) /\
    fs' = <[p := File (replace_first find_text replace_text (universal_newlines c))]> fs.
Proof.
  unfold edit_file. destruct (check_access file_path allowed_dirs) as [msg|] eqn:Ea.
  { intros H; injection H as _ <-. auto. }
  unfold bind at 1.
  pose proof (ro_path_exists PROJECT_ROOT (root_join PROJECT_ROOT file_path) fs) as Hro.
  destruct (path_exists PROJECT_ROOT (root_join PROJECT_ROOT file_path) fs) as [[ex|b] fs1];
    simpl in Hro; subst fs1.
  { intros H; injection H as _ <-. auto. }
  destruct b; simpl; [|intros H; injection H as _ <-; auto].
  destruct (String.eqb (path_suffix (root_join PROJECT_ROOT file_path)) ".md") eqn:Es; simpl;
    [|intros H; injection H as _ <-; auto].
  apply String.eqb_eq in Es.
  unfold bind at 1.
  pose proof (ro_read_text PROJECT_ROOT (root_join PROJECT_ROOT file_path) fs) as Hro.
  destruct (read_text PROJECT_ROOT (root_join PROJECT_ROOT file_path) fs) as [[ex|content] fs2] eqn:Er;
    simpl in Hro; subst fs2.
  { intros H; injection H as _ <-. auto. }
  apply read_text_inr in Er as [_ (p & c & Hres & Hent & ->)].
  destruct (str_contains find_text (universal_newlines c)) eqn:Ec; simpl;
    [|intros H; injection H as _ <-; auto].
  destruct (read_text_file PROJECT_ROOT fs _ p c Hres Hent) as (_ & _ & Hw).
  unfold bind. rewrite Hw. unfold ret. intros H; injection H as <- <-.
  right. apply entry_at_file in Hent as [Hf _]. exists p, c. auto 8.
Qed.

End EditFileExtras.

Section EditFileExtras2.

Variable PROJECT_ROOT : list string.

Lemma universal_newlines_no_cr_len (n : nat) (s : string) :
  String.length s <= n -> forall i, String.get i (universal_newlines s) <> Some CR.
Proof.
  revert s. induction n as [|n IH]; intros s Hlen i.
  - destruct s; simpl in *; [destruct i; discriminate|lia].
  - destruct s as [|c r]; [destruct i; discriminate|]. simpl in Hlen.
    simpl. destruct (Ascii.eqb c CR) eqn:Ec.
    + destruct r as [|d r'].
      * destruct i as [|[|i]]; simpl; try discriminate.
      * destruct (Ascii.eqb d LF).
        -- destruct i as [|i]; simpl; [intros H; injection H; discriminate|].
           apply IH. simpl in Hlen. lia.
        -- destruct i as [|i]; cbn [String.get]; [intros H; injection H; discriminate|].
           apply IH. lia.
    + destruct i as [|i]; simpl.
      * intros H; injection H as ->. rewrite Ascii.eqb_refl in Ec. discriminate.
      * apply IH. lia.
Qed.

Lemma universal_newlines_no_cr (s : string) (i : nat) :
  String.get i (universal_newlines s) <> Some CR.
Proof. exact (universal_newlines_no_cr_len _ s (le_n _) i). Qed.

Lemma get_app_cases (a b : string) (i : nat) (x : ascii) :
  String.get i (a +:+ b) = Some x ->
  (exists j, String.get j a = Some x) \/ (exists j, String.get j b = Some x).
Proof.
  revert i. induction a as [|c a IH]; intros i H; simpl in H; [eauto|].
  destruct i as [|i]; [left; exists 0; exact H|].
  destruct (IH i H) as [[j Hj]|Hb]; [left; exists (S j); exact Hj|right; exact Hb].
Qed.

Lemma get_app_l (a b : string) (j : nat) (x : ascii) :
  String.get j a = Some x -> String.get j (a +:+ b) = Some x.
Proof.
  revert j. induction a as [|c a IH]; intros j H; [destruct j; discriminate|].
  destruct j; simpl in *; [exact H|apply IH, H].
Qed.

Lemma get_app_r (a b : string) (j : nat) (x : ascii) :
  String.get j b = Some x -> String.get (String.length a + j) (a +:+ b) = Some x.
Proof. induction a as [|c a IH]; simpl; auto. Qed.

(** An edit writes the whole file back with ["\n"] line endings: whatever
    line endings the file had, the content written contains no carriage
    return unless [replace_text] brings one. *)
Theorem edit_file_writes_lf_only (file_path find_text replace_text : string)
    (allowed_dirs : option (list string)) (fs fs' : fsys) (r : exn + string) :
  (forall i, String.get i replace_text <> Some CR) ->
  edit_file PROJECT_ROOT file_path find_text replace_text allowed_dirs fs = (r, fs') ->
  forall p c', fs' !! p = Some (File c') -> fs !! p <> Some (File c') ->
  forall i, String.get i c' <> Some CR.
Proof.
  intros Hrt Hrun p c' Hp Hchg.
  destruct (edit_file_frame PROJECT_ROOT _ _ _ _ _ _ _ Hrun)
    as [->|(q & c & _ & _ & _ & _ & Hin & _ & ->)]; [contradiction|].
  destruct (decide (q = p)) as [<-|Hne]; [|rewrite lookup_insert_ne in Hp by exact Hne; contradiction].
  rewrite lookup_insert_eq in Hp. injection Hp as <-.
  destruct (replace_first_spec find_text replace_text _ Hin) as (pre & post & Hsplit & Hrep & _).
  rewrite Hrep. intros i Hi.
  destruct (get_app_cases _ _ _ _ Hi) as [[j Hj]|[j Hj]].
  - apply (universal_newlines_no_cr c j). rewrite Hsplit. apply get_app_l, Hj.
  - destruct (get_app_cases _ _ _ _ Hj) as [[k Hk]|[k Hk]]; [exact (Hrt k Hk)|].
    apply (universal_newlines_no_cr c (String.length pre + (String.length find_text + k))).
    rewrite Hsplit. apply get_app_r, get_app_r, Hk.
Qed.

(** With full access ([allowed_dirs] is [None]), an absolute [file_path]
    is taken from the file system's root, not from [PROJECT_ROOT], and an
    existing markdown file there is edited like one of the project's. *)
Theorem edit_file_absolute_path (file_path find_text replace_text : string)
    (fs : fsys) (p : list string) (c : string) :
  startswith file_path "/" = true ->
  resolve PROJECT_ROOT fs (root_join PROJECT_ROOT file_path) = inr (Some p) ->
  fs !! p = Some (File c) -> is_prefix_of p PROJECT_ROOT = false ->
  path_suffix (root_join PROJECT_ROOT file_path) = ".md" ->
  str_contains find_text (universal_newlines c) = true ->
  pp_base (root_join PROJECT_ROOT file_path) = [] /\
  edit_file PROJECT_ROOT file_path find_text replace_text None fs =
    (inr (updated_message file_path),
     <[p := File (replace_first find_text replace_text (universal_newlines c))]> fs).
Proof.
  intros Habs Hres Hf Hpre Hsuf Hin.
  split; [unfold root_join; simpl; rewrite Habs; reflexivity|].
  assert (Hent : entry_at PROJECT_ROOT fs p = Some (File c))
    by (unfold entry_at; rewrite Hpre; exact Hf).
  destruct (read_text_file PROJECT_ROOT fs _ p c Hres Hent) as (Hread & Hex & Hw).
  unfold edit_file. simpl. unfold bind at 1. rewrite Hex. simpl. rewrite Hsuf. simpl.
  unfold bind. rewrite Hread, Hin. simpl. rewrite Hw. reflexivity.
Qed.

End EditFileExtras2.

(** ** Sessions and turns *)

Section SessionExtras.

Lemma get_session_sweep (channel_id : string) (now : Z) (w : world) :
  let w' := snd (get_session channel_id now w) in
  (forall c s, SESSIONS w' !! c = Some s -> (now - last_activity s <= SESSION_TIMEOUT)%Z) /\
  (forall c s, c <> channel_id ->
     SESSIONS w' !! c = Some s <->
     SESSIONS w !! c = Some s /\ (now - last_activity s <= SESSION_TIMEOUT)%Z).
Proof.
  unfold get_session, bind, get, put, ret. simpl. split.
  - intros c s. destruct (decide (c = channel_id)) as [->|Hne].
    + rewrite lookup_insert_eq. intros H; injection H as <-.
      destruct (filter _ (SESSIONS w) !! channel_id) as [s|];
        [destruct (_ >? _)%Z|]; simpl; unfold SESSION_TIMEOUT; lia.
    + rewrite lookup_insert_ne by congruence. intros H.
      apply map_lookup_filter_Some in H as [_ H]. exact H.
  - intros c s Hne. rewrite lookup_insert_ne by congruence.
    rewrite map_lookup_filter_Some. reflexivity.
Qed.

(** After [get_session], no stored session is expired: every session left
    in [SESSIONS] was active within [SESSION_TIMEOUT] of [now].  For every
    other channel, the session is kept, unchanged, exactly when it was not
    expired. *)
Theorem get_session_sweeps (channel_id : string) (now : Z) (w : world) :
  let w' := snd (get_session channel_id now w) in
  (forall c s, SESSIONS w' !! c = Some s -> (now - last_activity s <= SESSION_TIMEOUT)%Z) /\
  (forall c s, c <> channel_id ->
     SESSIONS w' !! c = Some s <->
     SESSIONS w !! c = Some s /\ (now - last_activity s <= SESSION_TIMEOUT)%Z).
Proof. exact (get_session_sweep channel_id now w). Qed.

End SessionExtras.

Section TurnExtras.

Variable PROJECT_ROOT : list string.

Lemma session_append_frame (channel_id : string) (m : message) (w w' : world) (r : exn + unit) :
  session_append channel_id m w = (r, w') ->
  sent w' = sent w /\ files w' = files w /\
  forall c, c <> channel_id -> SESSIONS w' !! c = SESSIONS w !! c.
Proof.
  unfold session_append, bind, get, put, ret.
  destruct (SESSIONS w !! channel_id); intros H; injection H as _ <-; simpl; [|auto].
  repeat split. intros c Hc. apply lookup_insert_ne. congruence.
Qed.

Lemma session_trim_frame (channel_id : string) (w w' : world) (r : exn + unit) :
  session_trim channel_id w = (r, w') ->
  sent w' = sent w /\ files w' = files w /\
  forall c, c <> channel_id -> SESSIONS w' !! c = SESSIONS w !! c.
Proof.
  unfold session_trim, bind, get, put, ret.
  destruct (SESSIONS w !! channel_id); intros H; injection H as _ <-; simpl; [|auto].
  repeat split. intros c Hc. apply lookup_insert_ne. congruence.
Qed.

Lemma turn_setup_frame (e : env) (user_message channel_id : string) (w w1 : world)
    (r : exn + (option (list string) * string * list message)) :
  turn_setup PROJECT_ROOT e user_message channel_id w = (r, w1) ->
  files w1 = files w /\ sent w1 = sent w /\
  forall c, c <> channel_id ->
    SESSIONS w1 !! c = SESSIONS (snd (get_session channel_id (clock e) w)) !! c.
Proof.
  destruct (get_session_spec channel_id (clock e) w)
    as (sess & ws & Hrun & _ & _ & Hfiles & Hsent & _).
  rewrite Hrun. simpl. unfold turn_setup. unfold bind at 1. rewrite Hrun.
  unfold bind at 1, on_files. rewrite Hfiles.
  pose proof (ro_get_all_markdown_files PROJECT_ROOT (get_allowed_dirs channel_id) (files w)) as Hro.
  destruct (get_all_markdown_files PROJECT_ROOT (get_allowed_dirs channel_id) (files w))
    as [[ex|ctx] fs'] eqn:E; simpl in Hro; subst fs'.
  - intros H; injection H as _ <-. simpl. auto.
  - unfold bind at 1.
    match goal with |- context [session_append channel_id ?m ?w0] =>
      destruct (session_append channel_id m w0) as [[ex|[]] wa] eqn:Ea;
      apply session_append_frame in Ea as (Hta & Hfa & Hsa) end;
    simpl in Hta, Hfa, Hsa.
    + intros H; injection H as _ <-. rewrite Hfa, Hta. auto.
    + unfold session_messages, bind, get, ret. intros H; injection H as _ <-.
      rewrite Hfa, Hta. auto.
Qed.

Lemma call_api_files (e : env) (system : string) (msgs : list message) (w w' : world)
    (r : exn + response) :
  call_api e system msgs w = (r, w') -> files w' = files w.
Proof. unfold call_api, bind, get, put, lift. simpl. intros H; injection H as _ <-. reflexivity. Qed.

Lemma call_api_inr (e : env) (system : string) (msgs : list message) (w w' : world)
    (resp : response) :
  call_api e system msgs w = (inr resp, w') ->
  api e (sent w) {| req_system := system; req_messages := msgs |} = inr resp /\ files w' = files w.
Proof. unfold call_api, bind, get, put, lift. simpl. intros H; injection H as -> <-. auto. Qed.

(** A turn changes no session of another channel, except that
    [get_session] deletes the expired ones: afterwards another channel
    holds a session exactly when it held that same session before, last
    active within [SESSION_TIMEOUT] of the turn's [time.time()]. *)
Theorem ask_claude_other_channels (e : env) (fuel : nat) (user_message channel_id : string)
    (w w' : world) (r : exn + string) :
  ask_claude PROJECT_ROOT e fuel user_message channel_id w = Some (r, w') ->
  forall c s, c <> channel_id ->
    SESSIONS w' !! c = Some s <->
    SESSIONS w !! c = Some s /\ (clock e - last_activity s <= SESSION_TIMEOUT)%Z.
Proof.
  intros H c s Hc.
  destruct (get_session_sweep channel_id (clock e) w) as [_ Hsw].
  rewrite <- (Hsw c s Hc).
  rewrite ask_claude_unfold in H.
  destruct (turn_setup PROJECT_ROOT e user_message channel_id w)
    as [[ex|[[a ctx] msgs]] w1] eqn:Et.
  - injection H as _ <-. apply turn_setup_frame in Et as (_ & _ & Ho). rewrite Ho by exact Hc.
    reflexivity.
  - pose proof Et as Et'. apply turn_setup_frame in Et' as (_ & _ & Ho).
    apply turn_setup_inr in Et as (sess & ws & _ & _ & _ & _ & _ & Hs1 & _).
    assert (Hch : SESSIONS w1 !! channel_id = Some {| messages := msgs; last_activity := clock e |})
      by (rewrite Hs1; apply lookup_insert_eq).
    destruct (claude_exchange PROJECT_ROOT e fuel channel_id a ctx msgs w1)
      as [[[ex|t] w2]|] eqn:Ex; [| |discriminate]; injection H as _ <-;
      apply (claude_exchange_spec PROJECT_ROOT _ _ _ _ _ _ _ _ _ _ Hch) in Ex as [_ Hs2];
      simpl in Hs2; rewrite Hs2.
    + rewrite Ho by exact Hc. reflexivity.
    + rewrite lookup_insert_ne by congruence. rewrite Ho by exact Hc. reflexivity.
Qed.

Lemma execute_tool_other_name (e : env) (tool_name : string) (input : list (string * jvalue))
    (allowed_dirs : option (list string)) (fs : fsys) :
  tool_name <> "edit_file" ->
  snd (execute_tool PROJECT_ROOT e tool_name input allowed_dirs fs) = fs.
Proof.
  intros H. unfold execute_tool. apply String.eqb_neq in H. rewrite H.
  destruct (String.eqb tool_name "get_recent_updates"); reflexivity.
Qed.

Lemma run_tools_files_no_edit (e : env) (allowed_dirs : option (list string)) (bs : list block)
    (w w' : world) (r : exn + list tool_result) :
  (forall id input, ~ In (ToolUseBlock id "edit_file" input) bs) ->
  run_tools PROJECT_ROOT e allowed_dirs bs w = (r, w') -> files w' = files w.
Proof.
  revert w w' r. induction bs as [|[t|id name input] bs IH]; intros w w' r Hno H; simpl in H.
  - injection H as _ <-. reflexivity.
  - apply (IH _ _ _ (fun id input Hin => Hno id input (or_intror Hin)) H).
  - assert (Hname : name <> "edit_file").
    { intros ->. apply (Hno id input). left. reflexivity. }
    pose proof (execute_tool_other_name e name input allowed_dirs (files w) Hname) as Hsnd.
    unfold bind at 1, on_files in H.
    destruct (execute_tool PROJECT_ROOT e name input allowed_dirs (files w)) as [[ex|x] fs1];
      simpl in Hsnd; subst fs1.
    + injection H as _ <-. reflexivity.
    + unfold bind at 1 in H.
      destruct (run_tools PROJECT_ROOT e allowed_dirs bs (set_files (files w) w))
        as [[ex|xs] w2] eqn:E2;
        apply (IH _ _ _ (fun id input Hin => Hno id input (or_intror Hin))) in E2;
        injection H as _ <-; exact E2.
Qed.

Lemma tool_loop_files_no_edit (e : env) (fuel : nat) (allowed_dirs : option (list string))
    (system : string) (resp : response) (msgs : list message) (w w' : world)
    (r : exn + response) :
  (forall prev q resp id input, api e prev q = inr resp ->
     ~ In (ToolUseBlock id "edit_file" input) (resp_content resp)) ->
  (exists prev q, api e prev q = inr resp) ->
  tool_loop PROJECT_ROOT e fuel allowed_dirs system resp msgs w = Some (r, w') ->
  files w' = files w.
Proof.
  intros Hno. revert resp msgs w. induction fuel as [|fuel IH]; intros resp msgs w (prev & q & Hq) H;
    simpl in H.
  - destruct (String.eqb (stop_reason resp) "tool_use"); [discriminate|].
    injection H as _ <-. reflexivity.
  - destruct (String.eqb (stop_reason resp) "tool_use"); [|injection H as _ <-; reflexivity].
    unfold bindL, liftP at 1 in H.
    destruct (run_tools PROJECT_ROOT e allowed_dirs (resp_content resp) w) as [[ex|trs] w1] eqn:E1;
      apply (run_tools_files_no_edit e allowed_dirs _ _ _ _ (fun id input => Hno _ _ _ id input Hq))
        in E1.
    + injection H as _ <-. exact E1.
    + unfold bindL, liftP at 1 in H.
      match type of H with
      | context [call_api e system ?ms w1] =>
          destruct (call_api e system ms w1) as [[ex|resp'] w2] eqn:E2
      end.
      * injection H as _ <-. apply call_api_files in E2. congruence.
      * apply call_api_inr in E2 as [Happ Hf2].
        rewrite (IH _ _ _ (ex_intro _ _ (ex_intro _ _ Happ)) H). congruence.
Qed.

(** Only the [edit_file] tool writes: a turn in which no answer of the
    model asks for [edit_file] leaves every file as it was, whatever else
    happens (loading, [get_recent_updates], errors). *)
Theorem ask_claude_files_only_by_edit_file (e : env) (fuel : nat)
    (user_message channel_id : string) (w w' : world) (r : exn + string) :
  (forall prev q resp id input, api e prev q = inr resp ->
     ~ In (ToolUseBlock id "edit_file" input) (resp_content resp)) ->
  ask_claude PROJECT_ROOT e fuel user_message channel_id w = Some (r, w') ->
  files w' = files w.
Proof.
  intros Hno H. rewrite ask_claude_unfold in H.
  destruct (turn_setup PROJECT_ROOT e user_message channel_id w)
    as [[ex|[[a ctx] msgs]] w1] eqn:Et;
    apply turn_setup_frame in Et as (Hf1 & _ & _).
  { injection H as _ <-. exact Hf1. }
  rewrite <- Hf1. revert H. unfold claude_exchange, bindL at 1, liftP at 1.
  destruct (call_api e (system_with_files ctx) msgs w1) as [[ex|resp] wa] eqn:Ea.
  { intros H; injection H as _ <-. apply call_api_files in Ea. exact Ea. }
  apply call_api_inr in Ea as [Happ Hfa].
  unfold bindL at 1.
  destruct (tool_loop PROJECT_ROOT e fuel a (system_with_files ctx) resp msgs wa)
    as [[[ex|resp'] wb]|] eqn:Eb; [| |discriminate];
    apply (tool_loop_files_no_edit _ _ _ _ _ _ _ _ _ Hno (ex_intro _ _ (ex_intro _ _ Happ))) in Eb.
  - intros H; injection H as _ <-. congruence.
  - unfold bindL, liftP at 1.
    match goal with |- context [session_append channel_id ?m wb] =>
      destruct (session_append channel_id m wb) as [[ex|[]] wc] eqn:Ec;
      apply session_append_frame in Ec as (_ & Hfc & _) end.
    + intros H; injection H as _ <-. congruence.
    + unfold bindL, liftP at 1.
      destruct (session_trim channel_id wc) as [[ex|[]] wd] eqn:Ed;
        apply session_trim_frame in Ed as (_ & Hfd & _);
        intros H; injection H as _ <-; congruence.
Qed.

End TurnExtras.

Section ChainExtras.

Variable PROJECT_ROOT : list string.

Lemma no_pair_in_one {A} (x q1 q2 : A) (pre post : list A) :
  [x] <> pre ++ q1 :: q2 :: post.
Proof. destruct pre as [|y [|z pre]]; simpl; discriminate. Qed.

Lemma no_pair_in_nil {A} (q1 q2 : A) (pre post : list A) :
  [] <> pre ++ q1 :: q2 :: post.
Proof. destruct pre; simpl; discriminate. Qed.

Lemma tool_loop_chain (e : env) (fuel : nat) (allowed_dirs : option (list string))
    (system : string) (resp : response) (msgs : list message) (w w' : world)
    (r : exn + response) (prev : list request) :
  sent w = prev ++ [{| req_system := system; req_messages := msgs |}] ->
  api e prev {| req_system := system; req_messages := msgs |} = inr resp ->
  tool_loop PROJECT_ROOT e fuel allowed_dirs system resp msgs w = Some (r, w') ->
  exists reqs,
    sent w' = sent w ++ reqs /\
    forall pre q1 q2 post,
      {| req_system := system; req_messages := msgs |} :: reqs = pre ++ q1 :: q2 :: post ->
      exists resp1 trs,
        api e (prev ++ pre) q1 = inr resp1 /\ stop_reason resp1 = "tool_use" /\
        q2 = {| req_system := req_system q1;
                req_messages := req_messages q1 ++
                  [{| role := "assistant"; msg_content := CBlocks (resp_content resp1) |};
                   {| role := "user"; msg_content := CToolResults trs |}] |}.
Proof.
  revert resp msgs w prev. induction fuel as [|fuel IH]; intros resp msgs w prev Hsent Happ H;
    simpl in H.
  - destruct (String.eqb (stop_reason resp) "tool_use"); [discriminate|].
    injection H as _ <-. exists []. rewrite app_nil_r. split; [reflexivity|].
    intros pre q1 q2 post Heq. exfalso. exact (no_pair_in_one _ _ _ _ _ Heq).
  - destruct (String.eqb_spec (stop_reason resp) "tool_use") as [Htu|Htu].
    2: { injection H as _ <-. exists []. rewrite app_nil_r. split; [reflexivity|].
         intros pre q1 q2 post Heq. exfalso. exact (no_pair_in_one _ _ _ _ _ Heq). }
    unfold bindL, liftP at 1 in H.
    destruct (run_tools PROJECT_ROOT e allowed_dirs (resp_content resp) w) as [[ex|trs] w1] eqn:E1;
      apply run_tools_frame in E1 as [_ Ht1].
    { injection H as _ <-. exists []. rewrite app_nil_r. split; [exact Ht1|].
      intros pre q1 q2 post Heq. exfalso. exact (no_pair_in_one _ _ _ _ _ Heq). }
    unfold bindL, liftP at 1 in H.
    set (msgs' := msgs ++ _) in H.
    (* the pair made of the request answered by [resp] and the next one *)
    assert (Hfirst : forall q1 q2 post,
      {| req_system := system; req_messages := msgs |} ::
        {| req_system := system; req_messages := msgs' |} :: post = q1 :: q2 :: post ->
      exists resp1 trs',
        api e (prev ++ []) q1 = inr resp1 /\ stop_reason resp1 = "tool_use" /\
        q2 = {| req_system := req_system q1;
                req_messages := req_messages q1 ++
                  [{| role := "assistant"; msg_content := CBlocks (resp_content resp1) |};
                   {| role := "user"; msg_content := CToolResults trs' |}] |}).
    { intros q1 q2 post' Heq. injection Heq as <- <-. exists resp, trs.
      rewrite app_nil_r. auto. }
    destruct (call_api e system msgs' w1) as [[ex|resp'] w2] eqn:E2.
    + pose proof E2 as E2'. apply call_api_frame in E2' as [_ Ht2].
      injection H as _ <-. exists [{| req_system := system; req_messages := msgs' |}].
      rewrite Ht2, Ht1. split; [reflexivity|].
      intros pre q1 q2 post Heq. destruct pre as [|x pre].
      * simpl in Heq. injection Heq as H1 H2 H3. subst q1 q2. exact (Hfirst _ _ [] eq_refl).
      * exfalso. injection Heq as _ Heq. exact (no_pair_in_one _ _ _ _ _ Heq).
    + pose proof E2 as E2'. apply call_api_frame in E2' as [_ Ht2].
      apply call_api_inr in E2 as [Happ2 _]. rewrite Ht1 in Ht2, Happ2.
      destruct (IH resp' msgs' w2 (sent w) Ht2 Happ2 H) as (reqs & Ht3 & Hchain).
      exists ({| req_system := system; req_messages := msgs' |} :: reqs).
      rewrite Ht3, Ht2, <- app_assoc. split; [reflexivity|].
      intros pre q1 q2 post Heq. destruct pre as [|x pre].
      * simpl in Heq. injection Heq as H1 H2 H3. subst q1 q2. exact (Hfirst _ _ reqs eq_refl).
      * injection Heq as Hx Heq. subst x. destruct (Hchain pre q1 q2 post Heq) as (resp1 & trs' & Ha & Hs & Hq).
        exists resp1, trs'. rewrite Hsent, <- app_assoc in Ha. auto.
Qed.

Lemma claude_exchange_chain (e : env) (fuel : nat) (channel_id : string)
    (allowed_dirs : option (list string)) (ctx : string) (msgs : list message)
    (w1 w2 : world) (r : exn + string) :
  claude_exchange PROJECT_ROOT e fuel channel_id allowed_dirs ctx msgs w1 = Some (r, w2) ->
  exists reqs,
    sent w2 = sent w1 ++ reqs /\
    forall pre q1 q2 post, reqs = pre ++ q1 :: q2 :: post ->
      exists resp1 trs,
        api e (sent w1 ++ pre) q1 = inr resp1 /\ stop_reason resp1 = "tool_use" /\
        q2 = {| req_system := req_system q1;
                req_messages := req_messages q1 ++
                  [{| role := "assistant"; msg_content := CBlocks (resp_content resp1) |};
                   {| role := "user"; msg_content := CToolResults trs |}] |}.
Proof.
  unfold claude_exchange, bindL at 1, liftP at 1.
  destruct (call_api e (system_with_files ctx) msgs w1) as [[ex|resp] wa] eqn:Ea;
    pose proof Ea as Ea'; apply call_api_frame in Ea' as [_ Hta].
  { intros H; injection H as _ <-. eexists. split; [exact Hta|].
    intros pre q1 q2 post Heq. exfalso. exact (no_pair_in_one _ _ _ _ _ Heq). }
  apply call_api_inr in Ea as [Happ _].
  unfold bindL at 1.
  destruct (tool_loop PROJECT_ROOT e fuel allowed_dirs (system_with_files ctx) resp msgs wa)
    as [[[ex|resp'] wb]|] eqn:Eb; [| |discriminate];
    destruct (tool_loop_chain _ _ _ _ _ _ _ _ _ _ Hta Happ Eb) as (reqs & Htb & Hchain);
    rewrite Hta, <- app_assoc in Htb.
  - intros H; injection H as _ <-. eexists. split; [exact Htb|]. exact Hchain.
  - unfold bindL, liftP at 1.
    match goal with |- context [session_append channel_id ?m wb] =>
      destruct (session_append channel_id m wb) as [[ex|[]] wc] eqn:Ec;
      apply session_append_frame in Ec as (Htc & _ & _) end.
    + intros H; injection H as _ <-. eexists. rewrite Htc. split; [exact Htb|]. exact Hchain.
    + unfold bindL, liftP at 1.
      destruct (session_trim channel_id wc) as [[ex|[]] wd] eqn:Ed;
        apply session_trim_frame in Ed as (Htd & _ & _);
        intros H; injection H as _ <-; eexists; rewrite Htd, Htc;
        (split; [exact Htb|exact Hchain]).
Qed.

(** Within a turn the requests sent to the model form a chain: each
    request after the first resends the previous request's messages with
    two more at the end, the model's answer to that previous request (which
    asked for tools) and the tool results, under the same system prompt. *)
Theorem ask_claude_request_chain (e : env) (fuel : nat) (user_message channel_id : string)
    (w w' : world) (r : exn + string) :
  ask_claude PROJECT_ROOT e fuel user_message channel_id w = Some (r, w') ->
  exists reqs,
    sent w' = sent w ++ reqs /\
    forall pre q1 q2 post, reqs = pre ++ q1 :: q2 :: post ->
      exists resp1 trs,
        api e (sent w ++ pre) q1 = inr resp1 /\ stop_reason resp1 = "tool_use" /\
        q2 = {| req_system := req_system q1;
                req_messages := req_messages q1 ++
                  [{| role := "assistant"; msg_content := CBlocks (resp_content resp1) |};
                   {| role := "user"; msg_content := CToolResults trs |}] |}.
Proof.
  intros H. rewrite ask_claude_unfold in H.
  destruct (turn_setup PROJECT_ROOT e user_message channel_id w)
    as [[ex|[[a ctx] msgs]] w1] eqn:Et;
    apply turn_setup_frame in Et as (_ & Ht1 & _).
  { injection H as _ <-. exists []. rewrite app_nil_r. split; [exact Ht1|].
    intros pre q1 q2 post Heq. exfalso. exact (no_pair_in_nil _ _ _ _ Heq). }
  rewrite <- Ht1.
  destruct (claude_exchange PROJECT_ROOT e fuel channel_id a ctx msgs w1)
    as [[[ex|t] w2]|] eqn:Ex; [| |discriminate]; injection H as _ <-;
    exact (claude_exchange_chain _ _ _ _ _ _ _ _ _ Ex).
Qed.

(** [run_tools] answers every tool-use block of the model's answer, in
    order, with a result carrying that block's [id]; text blocks get none.
    If one tool raises, there are no results at all. *)
Theorem run_tools_answers_each_tool_use (e : env) (allowed_dirs : option (list string))
    (bs : list block) (w w' : world) (trs : list tool_result) :
  run_tools PROJECT_ROOT e allowed_dirs bs w = (inr trs, w') ->
  map tool_use_id trs =
    omap (fun b => match b with ToolUseBlock id _ _ => Some id | TextBlock _ => None end) bs.
Proof.
  revert w w' trs. induction bs as [|[t|id name input] bs IH]; intros w w' trs H; simpl in H.
  - injection H as <- _. reflexivity.
  - exact (IH _ _ _ H).
  - unfold bind at 1 in H.
    destruct (on_files (execute_tool PROJECT_ROOT e name input allowed_dirs) w) as [[ex|x] w1];
      [discriminate|].
    unfold bind at 1 in H.
    destruct (run_tools PROJECT_ROOT e allowed_dirs bs w1) as [[ex|xs] w2] eqn:E2; [discriminate|].
    unfold ret in H. injection H as <- _. simpl. f_equal. exact (IH _ _ _ E2).
Qed.

End ChainExtras.

(** ** Tools *)

Section ToolExtras.

Variable PROJECT_ROOT : list string.

Lemma run_tools_skip_text (e : env) (allowed_dirs : option (list string)) (ts : list string)
    (bs : list block) :
  run_tools PROJECT_ROOT e allowed_dirs (map TextBlock ts ++ bs) =
  run_tools PROJECT_ROOT e allowed_dirs bs.
Proof. induction ts as [|t ts IH]; [reflexivity|]. simpl. exact IH. Qed.

Lemma execute_tool_key_error (e : env) (input : list (string * jvalue))
    (allowed_dirs : option (list string)) (fs : fsys) (k : string) :
  (dict_get input "file_path" = None /\ k = "file_path" \/
   dict_get input "file_path" <> None /\ dict_get input "find_text" = None /\ k = "find_text" \/
   dict_get input "file_path" <> None /\ dict_get input "find_text" <> None /\
     dict_get input "replace_text" = None /\ k = "replace_text") ->
  execute_tool PROJECT_ROOT e "edit_file" input allowed_dirs fs = (inl (KeyError k), fs).
Proof.
  intros Hk. unfold execute_tool. simpl. unfold bind, lift, subscript.
  destruct Hk as [[H ->]|[[Hf [H ->]]|[Hf [Hg [H ->]]]]].
  - rewrite H. reflexivity.
  - destruct (dict_get input "file_path"); [|contradiction]. rewrite H. reflexivity.
  - destruct (dict_get input "file_path"); [|contradiction].
    destruct (dict_get input "find_text"); [|contradiction]. rewrite H. reflexivity.
Qed.

(** When the model's first answer asks for [edit_file] without one of its
    arguments ([file_path], [find_text], [replace_text], subscripted in
    that order; the keys before it present with any value), the [KeyError]
    ends the turn: the reply is the error text naming the key ("Sorry, I
    encountered an error: 'file_path'"), no further request is sent, and no
    file changes. *)
Theorem ask_claude_tool_argument_missing (e : env) (fuel : nat)
    (user_message channel_id : string) (w ws : world) (sess : session) (ctx : string)
    (resp : response) (ts : list string) (id : string) (input : list (string * jvalue))
    (rest : list block) (k : string) :
  get_session channel_id (clock e) w = (inr sess, ws) ->
  fst (get_all_markdown_files PROJECT_ROOT (get_allowed_dirs channel_id) (files w)) = inr ctx ->
  api e (sent w)
    {| req_system := system_with_files ctx;
       req_messages := messages sess ++
         [{| role := "user";
             msg_content := CText (context_message (messages sess) ctx user_message) |}] |}
    = inr resp ->
  stop_reason resp = "tool_use" ->
  resp_content resp = map TextBlock ts ++ ToolUseBlock id "edit_file" input :: rest ->
  (dict_get input "file_path" = None /\ k = "file_path" \/
   dict_get input "file_path" <> None /\ dict_get input "find_text" = None /\ k = "find_text" \/
   dict_get input "file_path" <> None /\ dict_get input "find_text" <> None /\
     dict_get input "replace_text" = None /\ k = "replace_text") ->
  fuel <> 0 ->
  error_reply (KeyError k) = "Sorry, I encountered an error: '" +:+ k +:+ "'" /\
  exists w' q,
    ask_claude PROJECT_ROOT e fuel user_message channel_id w =
      Some (inr (error_reply (KeyError k)), w') /\
    files w' = files w /\ sent w' = sent w ++ [q].
Proof.
  intros Hsess Hload Happ Hstop Hcontent Hk Hfuel. split; [reflexivity|].
  destruct (turn_setup_spec PROJECT_ROOT e user_message channel_id w)
    as (sess' & ws' & Hsess' & _ & _ & Hmatch).
  rewrite Hsess in Hsess'. injection Hsess' as Es _. subst sess'.
  rewrite Hload in Hmatch. destruct Hmatch as (w1 & Hts & _ & Ht1 & Hf1).
  destruct fuel as [|fuel]; [contradiction|].
  set (msgs := messages sess ++ _) in Hts.
  set (q := {| req_system := system_with_files ctx; req_messages := msgs |}).
  set (wa := set_sent (sent w1 ++ [q]) w1).
  assert (Hca : call_api e (system_with_files ctx) msgs w1 = (inr resp, wa)).
  { assert (Happ1 : api e (sent w1) q = inr resp) by (rewrite Ht1; exact Happ).
    unfold call_api, bind, get, put, lift. simpl. fold q. rewrite Happ1. reflexivity. }
  assert (Hrt : run_tools PROJECT_ROOT e (get_allowed_dirs channel_id) (resp_content resp) wa
                = (inl (KeyError k), set_files (files wa) wa)).
  { rewrite Hcontent, run_tools_skip_text. simpl. unfold bind at 1, on_files.
    rewrite (execute_tool_key_error e input _ _ k Hk). reflexivity. }
  assert (Htl : tool_loop PROJECT_ROOT e (S fuel) (get_allowed_dirs channel_id)
                  (system_with_files ctx) resp msgs wa
                = Some (inl (KeyError k), set_files (files wa) wa)).
  { simpl. rewrite Hstop. simpl. unfold bindL at 1, liftP at 1. rewrite Hrt. reflexivity. }
  rewrite ask_claude_unfold, Hts.
  unfold claude_exchange, bindL at 1, liftP at 1. rewrite Hca.
  unfold bindL at 1. rewrite Htl.
  eexists _, q. split; [reflexivity|]. simpl. split; [exact Hf1|]. rewrite Ht1. reflexivity.
Qed.



End ToolExtras.

(** ** Runs of the further properties *)

Section FurtherRuns.

Lemma handle_mention_request_text_witness :
  after_gt "U0BOT" = None /\
  py_strip (split_gt_last (default "" (ev_text
    {| ev_text := Some ("<@" +:+ "U0BOT" +:+ ">" +:+ "  What is left?  "); ev_channel := "C1";
       ev_bot_id := None; ev_channel_type := Some "channel" |}))) = py_strip "  What is left?  " /\
  py_strip "  What is left?  " = "What is left?".
Proof.
  split; [reflexivity|]. split; [|vm_compute; reflexivity].
  exact (proj1 (handle_mention_request_text DEMO_ROOT demo_env 3 demo_ts "U0BOT"
                  "  What is left?  " "C1" None (Some "channel") fresh_world [] eq_refl)).
Defined.

(** A mention while [project_beta] cannot be inspected. *)
Lemma handle_mention_load_error_witness :
  exists w', handle_mention DEMO_ROOT demo_env 3 demo_ts mention_event (broken_world, []) =
             Some (inl (permission_denied ["srv"; "kb"; "project_beta"]),
                   (w', [] ++ [PostMessage (ev_channel mention_event) THINKING])).
Proof.
  apply handle_mention_load_error; vm_compute; [discriminate|reflexivity].
Defined.

End FurtherRuns.

Section FurtherRuns2.

(** Editing the first line of a file saved with ["\r\n"] line endings
    rewrites both line endings as ["\n"]. *)
Lemma edit_file_writes_lf_only_witness :
  let run := edit_file DEMO_ROOT "project_alpha/todo.md" "TODO: ship A" "DONE: ship A" None
               crlf_files in
  let p := ["srv"; "kb"; "project_alpha"; "todo.md"] in
  let c' := "DONE: ship A" +:+ NL +:+ "TODO: ship B" in
  snd run !! p = Some (File c') /\ crlf_files !! p <> Some (File c') /\
  forall i, String.get i c' <> Some CR.
Proof.
  cbv zeta.
  assert (Hnew : snd (edit_file DEMO_ROOT "project_alpha/todo.md" "TODO: ship A" "DONE: ship A"
                        None crlf_files) !! ["srv"; "kb"; "project_alpha"; "todo.md"]
                 = Some (File ("DONE: ship A" +:+ NL +:+ "TODO: ship B")))
    by (vm_compute; reflexivity).
  assert (Hold : crlf_files !! ["srv"; "kb"; "project_alpha"; "todo.md"]
                 <> Some (File ("DONE: ship A" +:+ NL +:+ "TODO: ship B")))
    by (vm_compute; discriminate).
  split; [exact Hnew|]. split; [exact Hold|].
  exact (edit_file_writes_lf_only DEMO_ROOT "project_alpha/todo.md" "TODO: ship A" "DONE: ship A"
           None crlf_files _ _ ltac:(intros i; vm_compute; destruct i as [|[|[|[|[|[|[|[|[|[|[|[|i]]]]]]]]]]]];
                                     discriminate)
           (surjective_pairing _) _ _ Hnew Hold).
Defined.

(** With full access, ["/srv/ops/runbook.md"] is edited although the
    project root is [/srv/kb]. *)
Lemma edit_file_absolute_path_witness :
  pp_base (root_join DEMO_ROOT "/srv/ops/runbook.md") = [] /\
  edit_file DEMO_ROOT "/srv/ops/runbook.md" "care" "caution" None outside_files =
    (inr (updated_message "/srv/ops/runbook.md"),
     <[["srv"; "ops"; "runbook.md"] :=
         File (replace_first "care" "caution" (universal_newlines "Restart with care"))]>
       outside_files).
Proof.
  apply edit_file_absolute_path; vm_compute; reflexivity.
Defined.

(** [C2], active a minute ago, survives a turn's sweep on [C1]; [C3],
    idle for two hours, is deleted. *)
Lemma get_session_sweeps_witness :
  let w' := snd (get_session "C1" DEMO_NOW shared_world) in
  (SESSIONS w' !! "C2" = Some recent_session <->
   SESSIONS shared_world !! "C2" = Some recent_session /\
   (DEMO_NOW - last_activity recent_session <= SESSION_TIMEOUT)%Z) /\
  (SESSIONS w' !! "C3" = Some stale_session ->
   (DEMO_NOW - last_activity stale_session <= SESSION_TIMEOUT)%Z).
Proof.
  cbv zeta. split.
  - apply (proj2 (get_session_sweeps "C1" DEMO_NOW shared_world)). discriminate.
  - apply (proj1 (get_session_sweeps "C1" DEMO_NOW shared_world)).
Defined.

Lemma ask_claude_other_channels_witness :
  exists w',
    ask_claude DEMO_ROOT demo_env 3 "Mark the TODO done" "C1" shared_world
      = Some (inr "Marked it done.", w') /\
    (SESSIONS w' !! "C2" = Some recent_session <->
     SESSIONS shared_world !! "C2" = Some recent_session /\
     (clock demo_env - last_activity recent_session <= SESSION_TIMEOUT)%Z).
Proof.
  assert (H : ask_claude DEMO_ROOT demo_env 3 "Mark the TODO done" "C1" shared_world
              = Some (inr "Marked it done.",
                      snd_or shared_world
                        (ask_claude DEMO_ROOT demo_env 3 "Mark the TODO done" "C1" shared_world)))
    by (apply some_pair_by_fst; vm_compute; reflexivity).
  eexists. split; [exact H|].
  apply (ask_claude_other_channels DEMO_ROOT _ _ _ _ _ _ _ H). discriminate.
Defined.

(** A turn that only reads the git history writes no file. *)
Lemma ask_claude_files_only_by_edit_file_witness :
  exists w',
    ask_claude DEMO_ROOT news_env 3 "What changed this week?" "C1" fresh_world
      = Some (inr "One commit: Update notes.", w') /\
    files w' = files fresh_world.
Proof.
  assert (H : ask_claude DEMO_ROOT news_env 3 "What changed this week?" "C1" fresh_world
              = Some (inr "One commit: Update notes.",
                      snd_or fresh_world
                        (ask_claude DEMO_ROOT news_env 3 "What changed this week?" "C1"
                           fresh_world)))
    by (apply some_pair_by_fst; vm_compute; reflexivity).
  eexists. split; [exact H|].
  refine (ask_claude_files_only_by_edit_file DEMO_ROOT news_env 3 _ _ _ _ _ _ H).
  intros prev q resp id input Happ. simpl in Happ.
  destruct prev; injection Happ as <-; simpl; intuition discriminate.
Defined.

Lemma ask_claude_request_chain_witness :
  exists w',
    ask_claude DEMO_ROOT demo_env 3 "Mark the TODO done" "C1" fresh_world
      = Some (inr "Marked it done.", w') /\
    exists reqs,
      sent w' = sent fresh_world ++ reqs /\
      forall pre q1 q2 post, reqs = pre ++ q1 :: q2 :: post ->
        exists resp1 trs,
          api demo_env (sent fresh_world ++ pre) q1 = inr resp1 /\
          stop_reason resp1 = "tool_use" /\
          q2 = {| req_system := req_system q1;
                  req_messages := req_messages q1 ++
                    [{| role := "assistant"; msg_content := CBlocks (resp_content resp1) |};
                     {| role := "user"; msg_content := CToolResults trs |}] |}.
Proof.
  assert (H : ask_claude DEMO_ROOT demo_env 3 "Mark the TODO done" "C1" fresh_world
              = Some (inr "Marked it done.",
                      snd_or fresh_world
                        (ask_claude DEMO_ROOT demo_env 3 "Mark the TODO done" "C1" fresh_world)))
    by (apply some_pair_by_fst; vm_compute; reflexivity).
  eexists. split; [exact H|].
  exact (ask_claude_request_chain DEMO_ROOT _ _ _ _ _ _ _ H).
Defined.

(** A text block, then two tool uses: two results, in order. *)
Lemma run_tools_answers_each_tool_use_witness :
  let bs := [TextBlock "Checking."; ToolUseBlock "toolu_1" "get_recent_updates" [];
             ToolUseBlock "toolu_2" "lookup" []] in
  let run := run_tools DEMO_ROOT demo_env None bs fresh_world in
  exists trs,
    run = (inr trs, snd run) /\ map tool_use_id trs = ["toolu_1"; "toolu_2"].
Proof.
  cbv zeta.
  let r := eval vm_compute in
    (fst (run_tools DEMO_ROOT demo_env None
            [TextBlock "Checking."; ToolUseBlock "toolu_1" "get_recent_updates" [];
             ToolUseBlock "toolu_2" "lookup" []] fresh_world)) in
  lazymatch r with
  | inr ?trs =>
      assert (H : run_tools DEMO_ROOT demo_env None
                    [TextBlock "Checking."; ToolUseBlock "toolu_1" "get_recent_updates" [];
                     ToolUseBlock "toolu_2" "lookup" []] fresh_world
                  = (inr trs, snd (run_tools DEMO_ROOT demo_env None
                    [TextBlock "Checking."; ToolUseBlock "toolu_1" "get_recent_updates" [];
                     ToolUseBlock "toolu_2" "lookup" []] fresh_world)))
        by (apply pair_by_fst; vm_compute; reflexivity);
      exists trs; split; [exact H|];
      exact (run_tools_answers_each_tool_use DEMO_ROOT _ _ _ _ _ _ H)
  end.
Defined.

(** The model asks for an edit with [file_path] the number 5 and no
    [find_text]: the turn ends on the missing key. *)
Lemma ask_claude_tool_argument_missing_witness :
  error_reply (KeyError "find_text") = "Sorry, I encountered an error: 'find_text'" /\
  exists w' q,
    ask_claude DEMO_ROOT forgetful_env 3 "Mark the TODO done" "C1" fresh_world =
      Some (inr (error_reply (KeyError "find_text")), w') /\
    files w' = files fresh_world /\ sent w' = sent fresh_world ++ [q].
Proof.
  pose (ws := snd (get_session "C1" (clock forgetful_env) fresh_world)).
  let s := eval vm_compute in (fst (get_session "C1" (clock forgetful_env) fresh_world)) in
  let c := eval vm_compute in
    (fst (get_all_markdown_files DEMO_ROOT (get_allowed_dirs "C1") (files fresh_world))) in
  lazymatch s with
  | inr ?sess =>
  lazymatch c with
  | inr ?ctx =>
      apply (ask_claude_tool_argument_missing DEMO_ROOT forgetful_env 3 "Mark the TODO done" "C1"
               fresh_world ws sess ctx
               {| stop_reason := "tool_use";
                  resp_content := [ToolUseBlock "toolu_9" "edit_file"
                                     [("file_path", JInt 5); ("replace_text", JStr "DONE")]] |}
               [] "toolu_9" [("file_path", JInt 5); ("replace_text", JStr "DONE")]
               [] "find_text");
      [apply pair_by_fst; vm_compute; reflexivity | vm_compute; reflexivity | reflexivity
      | reflexivity | reflexivity
      | right; left; split; [discriminate|split; reflexivity] | discriminate]
  end
  end.
Defined.



End FurtherRuns2.
